(** * DayNightLightShift: the shift router of the Indigo plugin

    A shallow embedding of [plugin.py] (the [Shift] dataclass and the
    [Plugin] callbacks) together with the properties of its bookkeeping:
    the shift registry [self.shifts], the reverse index
    [self.device_to_shifts], and the commands sent to the Indigo server. *)

From Stdlib Require Import ZArith Ascii String List Bool Lia.
From stdpp Require Import base option list gmap strings relations.

Local Open Scope Z_scope.
Local Open Scope string_scope.
Local Open Scope list_scope.

(* ===================================================================== *)
(** ** Python values and exceptions *)
(* ===================================================================== *)

Module Py.

(** The Python values that flow through the plugin: device states, plugin
    properties and action properties hold [None], booleans, integers or
    strings. *)
Inductive value : Type :=
| VNone
| VBool (b : bool)
| VInt (z : Z)
| VStr (s : string).

(** The exceptions the plugin's own statements can raise.  [SystemError]
    stands for following a reference to an object that is not allocated;
    the interpreter never produces such a reference. *)
Inductive exn : Type :=
| KeyError
| AttributeError
| ValueError
| TypeError
| SystemError.

(** Python's [==] on these values: [bool] is a subclass of [int], so
    [True == 1] and [False == 0]; values of unrelated types are unequal. *)
Definition bool_to_Z (b : bool) : Z := if b then 1 else 0.

Definition py_eq (a b : value) : bool :=
  match a, b with
  | VNone, VNone => true
  | VBool x, VBool y => Bool.eqb x y
  | VBool x, VInt y => Z.eqb (bool_to_Z x) y
  | VInt x, VBool y => Z.eqb x (bool_to_Z y)
  | VInt x, VInt y => Z.eqb x y
  | VStr x, VStr y => String.eqb x y
  | _, _ => false
  end.

(** [x is None]. *)
Definition is_none (a : value) : bool :=
  match a with VNone => true | _ => false end.

(** Truth value of an object, as tested by [if x:]. *)
Definition truthy (a : value) : bool :=
  match a with
  | VNone => false
  | VBool b => b
  | VInt z => negb (Z.eqb z 0)
  | VStr s => negb (String.eqb s "")
  end.

(** [x in xs] for a list [xs]. *)
Definition py_in (a : value) (xs : list value) : bool :=
  existsb (py_eq a) xs.

(** *** [int(x)] *)

(** Whitespace stripped by [int] around a numeral (code points below 256). *)
Definition is_space (c : ascii) : bool :=
  let n := nat_of_ascii c in
  (Nat.leb 9 n && Nat.leb n 13) || (Nat.leb 28 n && Nat.leb n 32)
  || Nat.eqb n 133 || Nat.eqb n 160.

Definition digit_of (c : ascii) : option Z :=
  let n := nat_of_ascii c in
  if Nat.leb 48 n && Nat.leb n 57 then Some (Z.of_nat (n - 48)) else None.

Definition is_underscore (c : ascii) : bool := Nat.eqb (nat_of_ascii c) 95.

(** Decimal digits, with single underscores allowed between digits. *)
Fixpoint parse_digits (acc : Z) (after_digit : bool) (cs : list ascii)
  : option Z :=
  match cs with
  | [] => if after_digit then Some acc else None
  | c :: cs' =>
      match digit_of c with
      | Some d => parse_digits (acc * 10 + d) true cs'
      | None =>
          if is_underscore c && after_digit
          then parse_digits acc false cs'
          else None
      end
  end.

Fixpoint lstrip (cs : list ascii) : list ascii :=
  match cs with
  | c :: cs' => if is_space c then lstrip cs' else cs
  | [] => []
  end.

Definition strip (cs : list ascii) : list ascii :=
  rev (lstrip (rev (lstrip cs))).

Definition parse_int (s : string) : option Z :=
  match strip (list_ascii_of_string s) with
  | c :: cs' =>
      if Nat.eqb (nat_of_ascii c) 43 then parse_digits 0 false cs'
      else if Nat.eqb (nat_of_ascii c) 45
           then Z.opp <$> parse_digits 0 false cs'
           else parse_digits 0 false (c :: cs')
  | [] => None
  end.

(** [int(x)] in base ten: the identity on integers, 0/1 on booleans, the
    parsed numeral on strings ([ValueError] if malformed), [TypeError] on
    [None].  (The interpreter's limit on the length of a numeral, several
    thousand digits, is not modelled.) *)
Definition py_int (a : value) : Z + exn :=
  match a with
  | VNone => inr TypeError
  | VBool b => inl (bool_to_Z b)
  | VInt z => inl z
  | VStr s => match parse_int s with
              | Some z => inl z
              | None => inr ValueError
              end
  end.

End Py.
Export Py.


(* ===================================================================== *)
(** ** The Indigo server as the plugin sees it *)
(* ===================================================================== *)

Module Indigo.

(** An [indigo.Device] object: a copy of a device of the server's
    database, with the fields the plugin reads. *)
Record Device : Type := mkDevice {
  dev_id : Z;
  name : string;
  states : gmap string value;
  pluginProps : gmap string value
}.

(** [indigo.kDeviceAction]. *)
Inductive kDeviceAction : Type :=
| AllLightsOff | AllLightsOn | AllOff
| BrightenBy | DimBy | SetBrightness | SetColorLevels
| Lock | Unlock
| RequestStatus | Toggle | TurnOff | TurnOn.

(** The action object handed to [actionControlDevice] and to the plugin
    action [set_shift]. *)
Record Action : Type := mkAction {
  deviceId : Z;
  deviceAction : kDeviceAction;
  props : gmap string value
}.

(** The text of each [self.logger.info] call, by call site and by the
    values interpolated into it. *)
Inductive log_message : Type :=
| ShiftStarted (dev_name : string)
| ShiftStopped (dev_name : string)
| SentOn (dev_name : string)
| SentOff (dev_name : string)
| SentStatusRequest (dev_name : string)
| ShiftSetTo (shift_id : Z) (dev_name : string) (m : value).

(** What the plugin does to the outside, in the order it does it. *)
Inductive event : Type :=
| SubscribeToChanges
| UpdateStateOnServer (dev : Z) (key : string) (v : value)
| DeviceTurnOn (dev : Z)
| DeviceTurnOff (dev : Z)
| RefreshFromServer (dev : Z)
| LoggerInfo (m : log_message).

(** [d.states.get(key)]. *)
Definition states_get (d : Device) (key : string) : value :=
  default VNone (states d !! key).

Definition set_state (key : string) (v : value) (d : Device) : Device :=
  mkDevice (dev_id d) (name d) (<[key := v]> (states d)) (pluginProps d).

End Indigo.
Export Indigo.

(* ===================================================================== *)
(** ** The [Shift] dataclass *)
(* ===================================================================== *)

(** [class Mode(Enum)] declares the two modes with the values ['day'] and
    ['night']; the plugin stores and compares these strings (see [STATES]),
    it never builds a member of the class. *)
Definition DAY : value := VStr "day".
Definition NIGHT : value := VStr "night".

Definition STATES : list value := [VStr "day"; VStr "night"].

Record Shift : Type := mkShift {
  device_id : Z;
  onOffState : value;
  mode : value;
  day_device_id : Z;
  night_device_id : Z
}.

(** The property [Shift.current_shift_device_id]. *)
Definition current_shift_device_id (self : Shift) : Z :=
  if py_eq (mode self) (VStr "day")
  then day_device_id self
  else night_device_id self.

(** [Shift.__hash__]. *)
Definition Shift_hash (self : Shift) : Z := device_id self.

(** The [__eq__] that [dataclass] generates: the tuples of fields are
    compared. *)
Definition Shift_eq (a b : Shift) : bool :=
  Z.eqb (device_id a) (device_id b)
  && py_eq (onOffState a) (onOffState b)
  && py_eq (mode a) (mode b)
  && Z.eqb (day_device_id a) (day_device_id b)
  && Z.eqb (night_device_id a) (night_device_id b).

Definition set_onOffState (v : value) (s : Shift) : Shift :=
  mkShift (device_id s) v (mode s) (day_device_id s) (night_device_id s).

Definition set_mode (v : value) (s : Shift) : Shift :=
  mkShift (device_id s) (onOffState s) v (day_device_id s) (night_device_id s).

(* ===================================================================== *)
(** ** Objects, sets of objects, and the state of the world *)
(* ===================================================================== *)

(** [Shift] objects are mutable and shared between [self.shifts] and the
    sets of [self.device_to_shifts]: both hold references. *)
Abbreviation loc := nat (only parsing).

(** A [set] of [Shift] objects is kept as the list of its members'
    references in insertion order.  Membership is decided as the
    interpreter's hash table does: equal hashes, then identity or [==]. *)
Definition same_key (h : gmap loc Shift) (l l' : loc) : bool :=
  match h !! l, h !! l' with
  | Some a, Some b =>
      Z.eqb (Shift_hash a) (Shift_hash b) && (Nat.eqb l l' || Shift_eq b a)
  | _, _ => Nat.eqb l l'
  end.

Definition set_contains (h : gmap loc Shift) (ls : list loc) (l : loc) : bool :=
  existsb (same_key h l) ls.

(** [s.add(x)]. *)
Definition set_add (h : gmap loc Shift) (ls : list loc) (l : loc) : list loc :=
  if set_contains h ls l then ls else ls ++ [l].

(** [s.remove(x)]: the member found for [x] is taken out; [None] when
    there is none ([KeyError]). *)
Fixpoint set_remove (h : gmap loc Shift) (ls : list loc) (l : loc)
  : option (list loc) :=
  match ls with
  | [] => None
  | x :: ls' =>
      if same_key h l x then Some ls'
      else cons x <$> set_remove h ls' l
  end.

Record World : Type := mkWorld {
  heap : gmap loc Shift;                   (* the allocated Shift objects *)
  next_loc : loc;                          (* the next fresh reference *)
  shifts : gmap Z loc;                     (* self.shifts *)
  device_to_shifts : gmap Z (list loc);    (* self.device_to_shifts *)
  devices : gmap Z Device;                 (* the server's database *)
  trace : list event                       (* what was sent out so far *)
}.

(** *** Statements: state and exceptions *)

Inductive result (A : Type) : Type :=
| Return (a : A)
| Raise (e : exn).
Arguments Return {A} a.
Arguments Raise {A} e.

Definition M (A : Type) : Type := World -> result A * World.

Definition ret {A} (a : A) : M A := fun w => (Return a, w).

Definition raise {A} (e : exn) : M A := fun w => (Raise e, w).

Definition bind {A B} (c : M A) (k : A -> M B) : M B :=
  fun w =>
    match c w with
    | (Return a, w') => k a w'
    | (Raise e, w') => (Raise e, w')
    end.

Declare Scope py_scope.
Delimit Scope py_scope with py.
Notation "x <- c1 ;; c2" := (bind c1 (fun x => c2))
  (at level 100, c1 at next level, right associativity) : py_scope.
Notation "c1 ;; c2" := (bind c1 (fun _ => c2))
  (at level 100, right associativity) : py_scope.
Local Open Scope py_scope.

Definition get : M World := fun w => (Return w, w).

Definition modify (f : World -> World) : M unit := fun w => (Return tt, f w).

(** [for x in xs: body]. *)
Fixpoint for_each {A} (xs : list A) (body : A -> M unit) : M unit :=
  match xs with
  | [] => ret tt
  | x :: xs' => body x ;; for_each xs' body
  end.

Definition lift_exn {A} (r : A + exn) : M A :=
  match r with
  | inl a => ret a
  | inr e => raise e
  end.

(** [d[key]] on a dictionary. *)
Definition getitem {V} (d : gmap string V) (key : string) : M V :=
  match d !! key with
  | Some v => ret v
  | None => raise KeyError
  end.

Definition emit (e : event) : M unit :=
  modify (fun w => mkWorld (heap w) (next_loc w) (shifts w)
                           (device_to_shifts w) (devices w) (trace w ++ [e])).

Definition set_heap (h : gmap loc Shift) : M unit :=
  modify (fun w => mkWorld h (next_loc w) (shifts w)
                           (device_to_shifts w) (devices w) (trace w)).

Definition set_shifts (m : gmap Z loc) : M unit :=
  modify (fun w => mkWorld (heap w) (next_loc w) m
                           (device_to_shifts w) (devices w) (trace w)).

Definition set_device_to_shifts (m : gmap Z (list loc)) : M unit :=
  modify (fun w => mkWorld (heap w) (next_loc w) (shifts w)
                           m (devices w) (trace w)).

Definition set_devices (m : gmap Z Device) : M unit :=
  modify (fun w => mkWorld (heap w) (next_loc w) (shifts w)
                           (device_to_shifts w) m (trace w)).

(** Reading the object behind a reference. *)
Definition deref (l : loc) : M Shift :=
  w <- get ;;
  match heap w !! l with
  | Some s => ret s
  | None => raise SystemError
  end.

(** Assigning to a field of the object behind a reference. *)
Definition assign (l : loc) (f : Shift -> Shift) : M unit :=
  s <- deref l ;;
  w <- get ;;
  set_heap (<[l := f s]> (heap w)).

(** Attribute access on the result of [dict.get]: [None] has none of the
    attributes of a [Shift]. *)
Definition attr (o : option loc) : M loc :=
  match o with
  | Some l => ret l
  | None => raise AttributeError
  end.

(** [Shift(...)]: a new object. *)
Definition new_Shift (s : Shift) : M loc :=
  w <- get ;;
  let l := next_loc w in
  modify (fun w => mkWorld (<[l := s]> (heap w)) (S l) (shifts w)
                           (device_to_shifts w) (devices w) (trace w)) ;;
  ret l.

(* ===================================================================== *)
(** ** The calls into the [indigo] module *)
(* ===================================================================== *)

(** Modelled from the spec: [indigo.devices[k]], the host's device
    registry.  It hands out a copy of the device the server holds under
    [k]; an identifier the server does not know is a lookup error. *)
Definition indigo_devices (k : Z) : M Device :=
  w <- get ;;
  match devices w !! k with
  | Some d => ret (mkDevice k (name d) (states d) (pluginProps d))
  | None => raise KeyError
  end.

(** Modelled from the spec: [dev.updateStateOnServer(key, v)], which
    publishes a state of a device: the server's copy of the device takes
    the value, and so does the object the call is made on (the plugin
    reads the state back from it in [deviceStartComm]). *)
Definition updateStateOnServer (dev : Device) (key : string) (v : value)
  : M Device :=
  emit (UpdateStateOnServer (dev_id dev) key v) ;;
  w <- get ;;
  set_devices (alter (set_state key v) (dev_id dev) (devices w)) ;;
  ret (set_state key v dev).

(** Modelled from the spec: [dev.refreshFromServer()], the request to
    refresh a device object: the object takes the states the server holds
    at that moment. *)
Definition refreshFromServer (dev : Device) : M Device :=
  emit (RefreshFromServer (dev_id dev)) ;;
  w <- get ;;
  match devices w !! dev_id dev with
  | Some d => ret (mkDevice (dev_id dev) (name d) (states d) (pluginProps d))
  | None => ret dev
  end.

(** Modelled from the spec: [indigo.device.turnOn(k)] and
    [indigo.device.turnOff(k)], the power commands; the device's new
    state comes back later through [deviceUpdated]. *)
Definition indigo_device_turnOn (k : Z) : M unit := emit (DeviceTurnOn k).
Definition indigo_device_turnOff (k : Z) : M unit := emit (DeviceTurnOff k).

Definition logger_info (m : log_message) : M unit := emit (LoggerInfo m).

(* ===================================================================== *)
(** ** The methods of [Shift] that act on the server *)
(* ===================================================================== *)

(** [Shift.turn_on]. *)
Definition turn_on (self : loc) : M unit :=
  s <- deref self ;;
  shift_device <- indigo_devices (device_id s) ;;
  device <- indigo_devices (current_shift_device_id s) ;;
  indigo_device_turnOn (dev_id device) ;;
  assign self (set_onOffState (VBool true)) ;;
  _ <- updateStateOnServer shift_device "onOffState" (VBool true) ;;
  ret tt.

(** [Shift.turn_off]. *)
Definition turn_off (self : loc) : M unit :=
  s <- deref self ;;
  shift_device <- indigo_devices (device_id s) ;;
  device <- indigo_devices (current_shift_device_id s) ;;
  indigo_device_turnOff (dev_id device) ;;
  assign self (set_onOffState (VBool false)) ;;
  _ <- updateStateOnServer shift_device "onOffState" (VBool false) ;;
  ret tt.

(* ===================================================================== *)
(** ** The plugin *)
(* ===================================================================== *)

(** [Plugin.startup]. *)
Definition startup : M unit :=
  set_shifts ∅ ;;
  set_device_to_shifts ∅ ;;
  emit SubscribeToChanges.

(** [self.device_to_shifts.setdefault(k, set()).add(shift)]. *)
Definition setdefault_add (k : Z) (shift : loc) : M unit :=
  w <- get ;;
  let s := default [] (device_to_shifts w !! k) in
  set_device_to_shifts (<[k := set_add (heap w) s shift]> (device_to_shifts w)).

(** [Plugin.deviceStartComm]. *)
Definition deviceStartComm (dev : Device) : M unit :=
  dev <- (if is_none (states_get dev "mode")
             || negb (py_in (states_get dev "mode") STATES)
          then
            default_mode <- getitem (pluginProps dev) "default_mode" ;;
            updateStateOnServer dev "mode" default_mode
          else ret dev) ;;
  day_prop <- getitem (pluginProps dev) "day_device_id" ;;
  day <- lift_exn (py_int day_prop) ;;
  night_prop <- getitem (pluginProps dev) "night_device_id" ;;
  night <- lift_exn (py_int night_prop) ;;
  shift <- new_Shift (mkShift (dev_id dev) (VBool false)
                              (states_get dev "mode") day night) ;;
  (* Add the shift to the day and night devices *)
  day_prop <- getitem (pluginProps dev) "day_device_id" ;;
  day_key <- lift_exn (py_int day_prop) ;;
  setdefault_add day_key shift ;;
  night_prop <- getitem (pluginProps dev) "night_device_id" ;;
  night_key <- lift_exn (py_int night_prop) ;;
  setdefault_add night_key shift ;;
  (* Add the shift to the shifts dictionary *)
  w <- get ;;
  set_shifts (<[dev_id dev := shift]> (shifts w)) ;;
  logger_info (ShiftStarted (name dev)).

(** [self.shifts.pop(k)]. *)
Definition shifts_pop (k : Z) : M loc :=
  w <- get ;;
  match shifts w !! k with
  | Some l => set_shifts (delete k (shifts w)) ;; ret l
  | None => raise KeyError
  end.

(** [self.device_to_shifts[k]]. *)
Definition device_to_shifts_getitem (k : Z) : M (list loc) :=
  w <- get ;;
  match device_to_shifts w !! k with
  | Some s => ret s
  | None => raise KeyError
  end.

(** [self.device_to_shifts[k].remove(shift)], then the entry is dropped
    if its set is left empty. *)
Definition remove_and_prune (k : Z) (shift : loc) : M unit :=
  s <- device_to_shifts_getitem k ;;
  w <- get ;;
  match set_remove (heap w) s shift with
  | None => raise KeyError
  | Some s' =>
      set_device_to_shifts (<[k := s']> (device_to_shifts w)) ;;
      s <- device_to_shifts_getitem k ;;
      if Nat.eqb (length s) 0
      then w <- get ;;
           set_device_to_shifts (delete k (device_to_shifts w))
      else ret tt
  end.

(** [Plugin.deviceStopComm]. *)
Definition deviceStopComm (dev : Device) : M unit :=
  let device_id := dev_id dev in
  shift <- shifts_pop device_id ;;
  (* Remove the shift from the day device *)
  s <- deref shift ;;
  remove_and_prune (day_device_id s) shift ;;
  (* Remove the shift from the night device *)
  s <- deref shift ;;
  remove_and_prune (night_device_id s) shift ;;
  logger_info (ShiftStopped (name dev)).

(** The body of the loop of [Plugin.deviceUpdated]. *)
Definition deviceUpdated_body (new_dev : Device) (shift : loc) : M unit :=
  let new_device_id := dev_id new_dev in
  s <- deref shift ;;
  if py_eq (mode s) (VStr "day") && Z.eqb (day_device_id s) new_device_id
  then
    assign shift (set_onOffState (states_get new_dev "onOffState")) ;;
    s <- deref shift ;;
    shift_device <- indigo_devices (device_id s) ;;
    _ <- updateStateOnServer shift_device "onOffState"
                             (states_get new_dev "onOffState") ;;
    ret tt
  else if py_eq (mode s) (VStr "night")
          && Z.eqb (night_device_id s) new_device_id
  then
    assign shift (set_onOffState (states_get new_dev "onOffState")) ;;
    s <- deref shift ;;
    shift_device <- indigo_devices (device_id s) ;;
    _ <- updateStateOnServer shift_device "onOffState"
                             (states_get new_dev "onOffState") ;;
    ret tt
  else ret tt.

(** [Plugin.deviceUpdated]. *)
Definition deviceUpdated (orig_dev new_dev : Device) : M unit :=
  let new_device_id := dev_id new_dev in
  w <- get ;;
  match device_to_shifts w !! new_device_id with
  | None => ret tt
  | Some shifts => for_each shifts (deviceUpdated_body new_dev)
  end.

(** [Plugin.turn_on_shift]. *)
Definition turn_on_shift (action : Action) : M unit :=
  w <- get ;;
  shift <- attr (shifts w !! deviceId action) ;;
  s <- deref shift ;;
  device <- indigo_devices (current_shift_device_id s) ;;
  shift_device <- indigo_devices (device_id s) ;;
  _ <- updateStateOnServer shift_device "onOffState" (VBool true) ;;
  indigo_device_turnOn (dev_id device).

(** [Plugin.turn_off_shift]. *)
Definition turn_off_shift (action : Action) : M unit :=
  w <- get ;;
  shift <- attr (shifts w !! deviceId action) ;;
  s <- deref shift ;;
  device <- indigo_devices (current_shift_device_id s) ;;
  shift_device <- indigo_devices (device_id s) ;;
  _ <- updateStateOnServer shift_device "onOffState" (VBool false) ;;
  indigo_device_turnOff (dev_id device).

(** [Plugin.actionControlDevice]. *)
Definition actionControlDevice (action : Action) : M unit :=
  shift_device <- indigo_devices (deviceId action) ;;
  match deviceAction action with
  | TurnOn =>
      logger_info (SentOn (name shift_device)) ;;
      turn_on_shift action
  | TurnOff =>
      logger_info (SentOff (name shift_device)) ;;
      turn_off_shift action
  | RequestStatus =>
      logger_info (SentStatusRequest (name shift_device)) ;;
      w <- get ;;
      shift <- attr (shifts w !! deviceId action) ;;
      s <- deref shift ;;
      monitored_device <- indigo_devices (current_shift_device_id s) ;;
      monitored_device <- refreshFromServer monitored_device ;;
      s <- deref shift ;;
      shift_device <- updateStateOnServer shift_device "onOffState"
                                          (onOffState s) ;;
      s <- deref shift ;;
      shift_device <- updateStateOnServer shift_device "mode" (mode s) ;;
      _ <- updateStateOnServer shift_device "onOffState"
                               (states_get monitored_device "onOffState") ;;
      ret tt
  | _ => ret tt
  end.

(** [Plugin.set_shift]. *)
Definition set_shift (action : Action) : M unit :=
  let shift_id := deviceId action in
  mode <- getitem (props action) "mode" ;;
  w <- get ;;
  shift <- attr (shifts w !! shift_id) ;;
  assign shift (set_mode mode) ;;
  device <- indigo_devices shift_id ;;
  _ <- updateStateOnServer device "mode" mode ;;
  s <- deref shift ;;
  (if truthy (onOffState s)
   then
     if py_eq mode (VStr "day")
     then indigo_device_turnOn (day_device_id s) ;;
          indigo_device_turnOff (night_device_id s)
     else indigo_device_turnOn (night_device_id s) ;;
          indigo_device_turnOff (day_device_id s)
   else ret tt) ;;
  logger_info (ShiftSetTo shift_id (name device) mode).

(* ===================================================================== *)
(** ** What the properties observe *)
(* ===================================================================== *)

Global Instance value_eq_dec : EqDecision value.
Proof. solve_decision. Defined.

(** The world a statement leaves behind, and how it ended. *)
Definition world_after {A} (c : M A) (w : World) : World := (c w).2.
Definition outcome {A} (c : M A) (w : World) : result A := (c w).1.

(** The [onOffState] and [mode] fields of the shift registered under an
    identifier. *)
Definition cached_onOffState (w : World) (shift_id : Z) : option value :=
  l ← shifts w !! shift_id; onOffState <$> heap w !! l.

Definition cached_mode (w : World) (shift_id : Z) : option value :=
  l ← shifts w !! shift_id; mode <$> heap w !! l.

(** The state the server holds for a device, as other clients see it. *)
Definition published (w : World) (k : Z) (key : string) : option value :=
  d ← devices w !! k; states d !! key.

(** The state an underlying device reports ([None] in Python when it has
    no such state). *)
Definition reported (w : World) (k : Z) (key : string) : value :=
  default VNone (published w k key).

Definition is_power_command (e : event) : bool :=
  match e with
  | DeviceTurnOn _ | DeviceTurnOff _ => true
  | _ => false
  end.

Definition power_commands (t : list event) : list event :=
  List.filter is_power_command t.

(** The target a shift does not currently select. *)
Definition inactive_shift_device_id (s : Shift) : Z :=
  if py_eq (mode s) (VStr "day")
  then night_device_id s
  else day_device_id s.

(** "[d] is the shift's currently active target": mode DAY and [d] the day
    device, or mode NIGHT and [d] the night device. *)
Definition is_active_target (s : Shift) (d : Z) : bool :=
  (py_eq (mode s) DAY && Z.eqb (day_device_id s) d)
  || (py_eq (mode s) NIGHT && Z.eqb (night_device_id s) d).

(** What [deviceUpdated] does to one shift and what it publishes for it. *)
Definition mirror (d : Z) (v : value) (s : Shift) : Shift :=
  if is_active_target s d then set_onOffState v s else s.

Definition mirror_event (h : gmap loc Shift) (d : Z) (v : value) (l : loc)
  : option event :=
  s ← h !! l;
  if is_active_target s d
  then Some (UpdateStateOnServer (device_id s) "onOffState" v)
  else None.

(** [x] is in the set, it is there once, and the set finds no other
    member for it. *)
Definition sole_member (h : gmap loc Shift) (ls : list loc) (l : loc) : bool :=
  Nat.eqb (count_occ Nat.eq_dec ls l) 1
  && forallb (fun x => negb (same_key h l x) || Nat.eqb x l) ls.

(** The set without a member. *)
Definition without (l : loc) (ls : list loc) : list loc :=
  List.filter (fun x => negb (Nat.eqb x l)) ls.

(** The devices whose [onOffState] the loop publishes. *)
Definition publishes (h : gmap loc Shift) (d : Z) (ls : list loc) (k : Z)
  : bool :=
  existsb (fun l => match h !! l with
                    | Some s => is_active_target s d && Z.eqb (device_id s) k
                    | None => false
                    end) ls.

(** The index after [self.device_to_shifts[k].remove(shift)] and the
    pruning that follows it, for an entry [ls] of which the shift is a
    sole member. *)
Definition pruned (k : Z) (l : loc) (ls : list loc) (idx : gmap Z (list loc))
  : gmap Z (list loc) :=
  if decide (ls = [l]) then delete k idx else <[k := without l ls]> idx.

(* ===================================================================== *)
(** ** The index mirrors the registry *)
(* ===================================================================== *)

(** The bookkeeping invariant: every registered shift is a live object
    filed under its own identifier and held by the index entries of its
    two targets; every index entry is a non-empty, duplicate-free set of
    registered shifts that name the entry's device as a target; every
    reference in use was handed out by the allocator. *)
Record wf (w : World) : Prop := mk_wf {
  wf_reg : forall k l, shifts w !! k = Some l ->
    exists s, heap w !! l = Some s /\ device_id s = k
      /\ (exists ls, device_to_shifts w !! day_device_id s = Some ls /\ l ∈ ls)
      /\ (exists ls, device_to_shifts w !! night_device_id s = Some ls
                     /\ l ∈ ls);
  wf_idx : forall k ls, device_to_shifts w !! k = Some ls ->
    NoDup ls /\ ls <> []
    /\ forall l, l ∈ ls ->
         exists s, heap w !! l = Some s /\ shifts w !! device_id s = Some l
                   /\ (day_device_id s = k \/ night_device_id s = k);
  wf_heap : forall l s, heap w !! l = Some s -> (l < next_loc w)%nat
}.

(** Two objects with the same identity as far as the bookkeeping goes. *)
Definition same_ids (s s' : Shift) : Prop :=
  device_id s' = device_id s
  /\ day_device_id s' = day_device_id s
  /\ night_device_id s' = night_device_id s.

(** Two worlds with the same registry, index and allocator, and the same
    objects up to their [onOffState] and [mode]. *)
Definition same_shape (w w' : World) : Prop :=
  shifts w' = shifts w
  /\ device_to_shifts w' = device_to_shifts w
  /\ next_loc w' = next_loc w
  /\ forall l, match heap w !! l, heap w' !! l with
               | Some s, Some s' => same_ids s s'
               | None, None => True
               | _, _ => False
               end.

(** A statement that, however it ends, leaves the shape alone. *)
Definition keeps_shape {A} (c : M A) : Prop :=
  forall w, same_shape w (c w).2.

(** The server's database changes behind the plugin's back. *)
Definition host_update (dvs : gmap Z Device) (w : World) : World :=
  mkWorld (heap w) (next_loc w) (shifts w) (device_to_shifts w) dvs (trace w).

(** One callback from the host, or one change on the server.  The host
    starts a device only when it is not running. *)
Inductive step (w : World) : World -> Prop :=
| step_startup : step w (world_after startup w)
| step_start (dev : Device) :
    shifts w !! dev_id dev = None ->
    step w (world_after (deviceStartComm dev) w)
| step_stop (dev : Device) : step w (world_after (deviceStopComm dev) w)
| step_updated (orig_dev new_dev : Device) :
    step w (world_after (deviceUpdated orig_dev new_dev) w)
| step_control (action : Action) :
    step w (world_after (actionControlDevice action) w)
| step_set_shift (action : Action) :
    step w (world_after (set_shift action) w)
| step_host (dvs : gmap Z Device) : step w (host_update dvs w).

(** The plugin as loaded, before any callback. *)
Definition loaded (dvs : gmap Z Device) : World := mkWorld ∅ 0%nat ∅ ∅ dvs [].

(** The index entry under [k] once the shift [l] has been taken out of
    every entry and the empty entries dropped. *)
Definition after_stop (l : loc) (idx : gmap Z (list loc)) (k : Z)
  : option (list loc) :=
  ls ← idx !! k;
  if decide (without l ls = []) then None else Some (without l ls).

(** *** Worlds of the scenarios *)

Definition no_props : gmap string value := ∅.

(** A lamp for the day (switched on), two for the night, and the virtual
    devices of three shifts, as the server holds them. *)
Definition house : gmap Z Device :=
  {[ 1 := mkDevice 1 "Porch shift" ∅
            {[ "default_mode" := VStr "day";
               "day_device_id" := VStr "10";
               "night_device_id" := VStr "20" ]};
     2 := mkDevice 2 "Hall shift" {[ "mode" := VStr "night" ]}
            {[ "default_mode" := VStr "day";
               "day_device_id" := VStr "10";
               "night_device_id" := VStr "30" ]};
     3 := mkDevice 3 "Single lamp shift" {[ "mode" := VStr "day" ]}
            {[ "default_mode" := VStr "day";
               "day_device_id" := VStr "10";
               "night_device_id" := VStr "10" ]};
     10 := mkDevice 10 "Day lamp" {[ "onOffState" := VBool true ]} ∅;
     20 := mkDevice 20 "Night lamp" {[ "onOffState" := VBool false ]} ∅;
     30 := mkDevice 30 "Hall night lamp" ∅ ∅ ]}.

Definition the_device (k : Z) : Device :=
  default (mkDevice k "" ∅ ∅) (house !! k).

(** Before [startup]. *)
Definition w_boot : World := mkWorld ∅ 0%nat ∅ ∅ house [].

(** The porch shift alone, started from its configuration. *)
Definition w_porch : World :=
  world_after (startup ;; deviceStartComm (the_device 1)) w_boot.

(** The porch shift with its lamp known to be on. *)
Definition w_porch_on : World :=
  world_after (deviceUpdated (the_device 10) (the_device 10)) w_porch.

(** The porch shift (mode day) and the hall shift (mode night), which
    share the day lamp. *)
Definition w_two : World :=
  world_after (deviceStartComm (the_device 2)) w_porch.

(** The single-lamp shift (day and night device the same) next to the
    porch shift, which shares that lamp. *)
Definition w_shared : World :=
  world_after (deviceStartComm (the_device 3)) w_porch.

(** The single-lamp shift alone. *)
Definition w_single : World :=
  world_after (startup ;; deviceStartComm (the_device 3)) w_boot.

(* ===================================================================== *)
(** ** Further observations *)
(* ===================================================================== *)

(** Two worlds with the same objects, registry, index and allocator. *)
Definition same_plugin_state (w w' : World) : Prop :=
  heap w' = heap w
  /\ next_loc w' = next_loc w
  /\ shifts w' = shifts w
  /\ device_to_shifts w' = device_to_shifts w.

(** A statement that, however it ends, writes none of them. *)
Definition keeps_plugin_state {A} (c : M A) : Prop :=
  forall w, same_plugin_state w (c w).2.

(** A statement that, however it ends, sends no power command. *)
Definition sends_no_power {A} (c : M A) : Prop :=
  forall w, power_commands (trace (c w).2) = power_commands (trace w).

(** The device actions [actionControlDevice] has a branch for. *)
Definition is_handled (a : kDeviceAction) : bool :=
  match a with
  | TurnOn | TurnOff | RequestStatus => true
  | _ => false
  end.

(** The porch shift, switched on, after the server has lost its virtual
    device. *)
Definition w_orphan : World :=
  host_update (delete 1 (devices w_porch_on)) w_porch_on.

(* ===================================================================== *)
(** ** Running the statements *)
(* ===================================================================== *)

Ltac py_unfold :=
  unfold turn_on_shift, turn_off_shift, set_shift, actionControlDevice,
    deviceUpdated, deviceUpdated_body, deviceStopComm, deviceStartComm,
    remove_and_prune, device_to_shifts_getitem, shifts_pop, setdefault_add,
    startup, turn_on, turn_off, logger_info, indigo_device_turnOn,
    indigo_device_turnOff, refreshFromServer, updateStateOnServer,
    indigo_devices, new_Shift, attr, assign, deref, set_devices,
    set_device_to_shifts, set_shifts, set_heap, emit, getitem, lift_exn,
    modify, get, bind, ret, raise in *.

Ltac py_step :=
  match goal with
  | H : ?x = _ |- context [?x] => rewrite H
  | |- context [<[?k := _]> _ !! ?k] => rewrite lookup_insert_eq
  end.

(** Symbolic execution: unfold a callback and feed it the facts at hand. *)
Ltac py_run := py_unfold; cbn; repeat (py_step; cbn).

Lemma py_eq_str (a : value) (x : string) :
  py_eq a (VStr x) = true <-> a = VStr x.
Proof.
  destruct a; simpl; try (split; congruence).
  rewrite String.eqb_eq. split; congruence.
Qed.

Lemma py_eq_day_false (m : value) : m <> DAY -> py_eq m (VStr "day") = false.
Proof.
  intros Hne. destruct (py_eq m (VStr "day")) eqn:E; [|reflexivity].
  apply py_eq_str in E. contradiction.
Qed.

Example py_int_decimal : py_int (VStr "1048576") = inl 1048576.
Proof. reflexivity. Qed.

Example py_int_signed_padded : py_int (VStr " -12_000 ") = inl (-12000).
Proof. reflexivity. Qed.

Example py_int_malformed :
  py_int (VStr "") = inr ValueError
  /\ py_int (VStr "1__0") = inr ValueError
  /\ py_int (VStr "12a") = inr ValueError
  /\ py_int VNone = inr TypeError.
Proof. repeat split. Qed.

Example py_eq_bool_int :
  py_eq (VBool true) (VInt 1) = true /\ py_eq (VStr "day") VNone = false.
Proof. split; reflexivity. Qed.

Lemma published_alter (dv : gmap Z Device) (k : Z) (key : string) (v : value)
      (d : Device) (w : World) :
  dv !! k = Some d ->
  devices w = alter (set_state key v) k dv ->
  published w k key = Some v.
Proof.
  intros Hd Hw. unfold published. rewrite Hw, lookup_alter_eq, Hd. cbn.
  apply lookup_insert_eq.
Qed.

Lemma power_commands_app (t1 t2 : list event) :
  power_commands (t1 ++ t2) = power_commands t1 ++ power_commands t2.
Proof. apply List.filter_app. Qed.

(** [Plugin.set_shift] on a registered shift, in one equation. *)
Lemma set_shift_run (action : Action) (w : World) (m : value) (l : loc)
      (s : Shift) (d : Device) :
  props action !! "mode" = Some m ->
  shifts w !! deviceId action = Some l ->
  heap w !! l = Some s ->
  devices w !! deviceId action = Some d ->
  set_shift action w =
    (Return tt,
     mkWorld (<[l := set_mode m s]> (heap w)) (next_loc w) (shifts w)
       (device_to_shifts w)
       (alter (set_state "mode" m) (deviceId action) (devices w))
       (trace w
          ++ [UpdateStateOnServer (deviceId action) "mode" m]
          ++ (if truthy (onOffState s)
              then if py_eq m (VStr "day")
                   then [DeviceTurnOn (day_device_id s);
                         DeviceTurnOff (night_device_id s)]
                   else [DeviceTurnOn (night_device_id s);
                         DeviceTurnOff (day_device_id s)]
              else [])
          ++ [LoggerInfo (ShiftSetTo (deviceId action) (name d) m)])).
Proof.
  intros Hm Hs Hh Hd. destruct w as [h n sh idx dv tr]. simpl in *.
  py_run.
  destruct (truthy (onOffState s)); cbn.
  - destruct (py_eq m (VStr "day")); cbn; rewrite <- ?app_assoc; reflexivity.
  - rewrite <- ?app_assoc; reflexivity.
Qed.

(* ===================================================================== *)
(** ** The active device of a shift *)
(* ===================================================================== *)

(** C8.  For every shift, the derived accessor
    [current_shift_device_id] returns the day device when the shift's
    mode is DAY and the night device otherwise. *)
Theorem current_shift_device_id_by_mode (s : Shift) :
  current_shift_device_id s =
    if decide (mode s = DAY) then day_device_id s else night_device_id s.
Proof.
  unfold current_shift_device_id. destruct (decide (mode s = DAY)) as [E|E].
  - rewrite E. reflexivity.
  - rewrite (py_eq_day_false _ E). reflexivity.
Qed.

(* ===================================================================== *)
(** ** Changing the mode *)
(* ===================================================================== *)

(** C3.  For a registered shift, [set_shift] with mode [m] stores [m] in
    the shift and publishes it; if the cached [onOffState] is true it
    sends exactly one turn-on, to the newly active device, and exactly
    one turn-off, to the newly inactive device; if it is false it sends
    no power command at all. *)
Theorem set_shift_switches_power (action : Action) (w : World) (m : value)
        (l : loc) (s : Shift) (d : Device) :
  props action !! "mode" = Some m ->
  shifts w !! deviceId action = Some l ->
  heap w !! l = Some s ->
  devices w !! deviceId action = Some d ->
  exists w' new,
    set_shift action w = (Return tt, w')
    /\ cached_mode w' (deviceId action) = Some m
    /\ cached_onOffState w' (deviceId action) = Some (onOffState s)
    /\ published w' (deviceId action) "mode" = Some m
    /\ trace w' = trace w ++ new
    /\ UpdateStateOnServer (deviceId action) "mode" m ∈ new
    /\ power_commands new =
         if truthy (onOffState s)
         then [DeviceTurnOn (current_shift_device_id (set_mode m s));
               DeviceTurnOff (inactive_shift_device_id (set_mode m s))]
         else [].
Proof.
  intros Hm Hs Hh Hd.
  eexists _, _. split; [apply (set_shift_run _ _ _ _ _ _ Hm Hs Hh Hd)|].
  unfold cached_mode, cached_onOffState. cbn. rewrite Hs. cbn.
  rewrite lookup_insert_eq. cbn.
  repeat split.
  - eapply published_alter; [exact Hd | reflexivity].
  - apply list_elem_of_here.
  - unfold current_shift_device_id, inactive_shift_device_id. cbn.
    destruct (truthy (onOffState s)); [|reflexivity].
    destruct (py_eq m (VStr "day")); reflexivity.
Qed.

(** C10.  [set_shift] does not validate its mode: whatever value [m] the
    action carries is stored in the shift and published as it is, and
    when the cached [onOffState] is true every [m] other than DAY turns
    the night device on and the day device off. *)
Theorem set_shift_mode_unvalidated (action : Action) (w : World) (m : value)
        (l : loc) (s : Shift) (d : Device) :
  props action !! "mode" = Some m ->
  shifts w !! deviceId action = Some l ->
  heap w !! l = Some s ->
  devices w !! deviceId action = Some d ->
  exists w' new,
    set_shift action w = (Return tt, w')
    /\ heap w' !! l = Some (set_mode m s)
    /\ published w' (deviceId action) "mode" = Some m
    /\ trace w' = trace w ++ new
    /\ UpdateStateOnServer (deviceId action) "mode" m ∈ new
    /\ (truthy (onOffState s) = true -> m <> DAY ->
        power_commands new = [DeviceTurnOn (night_device_id s);
                              DeviceTurnOff (day_device_id s)]).
Proof.
  intros Hm Hs Hh Hd.
  eexists _, _. split; [apply (set_shift_run _ _ _ _ _ _ Hm Hs Hh Hd)|].
  cbn. repeat split.
  - apply lookup_insert_eq.
  - eapply published_alter; [exact Hd | reflexivity].
  - apply list_elem_of_here.
  - intros Hon Hne. rewrite Hon, (py_eq_day_false _ Hne). reflexivity.
Qed.

(** The action that asks for the night mode, and one that asks for a mode
    that does not exist. *)
Lemma set_shift_switches_power_witness :
  let action := mkAction 1 TurnOn {[ "mode" := VStr "night" ]} in
  exists w' new,
    set_shift action w_porch_on = (Return tt, w')
    /\ cached_mode w' 1 = Some NIGHT
    /\ trace w' = trace w_porch_on ++ new
    /\ power_commands new = [DeviceTurnOn 20; DeviceTurnOff 10].
Proof.
  intros action.
  destruct (set_shift_switches_power action w_porch_on (VStr "night") 0%nat
              (mkShift 1 (VBool true) DAY 10 20)
              (set_state "onOffState" (VBool true)
                 (set_state "mode" (VStr "day") (the_device 1)))
              eq_refl eq_refl eq_refl eq_refl)
    as (w' & new & Hrun & Hmode & _ & _ & Htrace & _ & Hcmds).
  exists w', new. repeat split; assumption.
Defined.

Lemma set_shift_mode_unvalidated_witness :
  let action := mkAction 1 TurnOn {[ "mode" := VStr "dusk" ]} in
  exists w' new,
    set_shift action w_porch_on = (Return tt, w')
    /\ heap w' !! 0%nat = Some (mkShift 1 (VBool true) (VStr "dusk") 10 20)
    /\ published w' 1 "mode" = Some (VStr "dusk")
    /\ trace w' = trace w_porch_on ++ new
    /\ power_commands new = [DeviceTurnOn 20; DeviceTurnOff 10].
Proof.
  intros action.
  destruct (set_shift_mode_unvalidated action w_porch_on (VStr "dusk") 0%nat
              (mkShift 1 (VBool true) DAY 10 20)
              (set_state "onOffState" (VBool true)
                 (set_state "mode" (VStr "day") (the_device 1)))
              eq_refl eq_refl eq_refl eq_refl)
    as (w' & new & Hrun & Hheap & Hpub & Htrace & _ & Hcmds).
  exists w', new. repeat split; try assumption.
  apply Hcmds; [reflexivity | discriminate].
Defined.

(* ===================================================================== *)
(** ** Turning a shift on and off *)
(* ===================================================================== *)

(** [Plugin.turn_on_shift] on a registered shift, in one equation: the
    new state is published and one power command goes to the active
    device; the [Shift] object is not written. *)
Lemma turn_on_shift_run (action : Action) (w : World) (l : loc) (s : Shift)
      (d dv : Device) :
  shifts w !! deviceId action = Some l ->
  heap w !! l = Some s ->
  devices w !! current_shift_device_id s = Some d ->
  devices w !! device_id s = Some dv ->
  turn_on_shift action w =
    (Return tt,
     mkWorld (heap w) (next_loc w) (shifts w) (device_to_shifts w)
       (alter (set_state "onOffState" (VBool true)) (device_id s) (devices w))
       (trace w ++ [UpdateStateOnServer (device_id s) "onOffState" (VBool true);
                    DeviceTurnOn (current_shift_device_id s)])).
Proof.
  intros Hs Hh Hd Hdv. destruct w as [h n sh idx dvs tr]. simpl in *.
  py_run. rewrite <- app_assoc. reflexivity.
Qed.

Lemma turn_off_shift_run (action : Action) (w : World) (l : loc) (s : Shift)
      (d dv : Device) :
  shifts w !! deviceId action = Some l ->
  heap w !! l = Some s ->
  devices w !! current_shift_device_id s = Some d ->
  devices w !! device_id s = Some dv ->
  turn_off_shift action w =
    (Return tt,
     mkWorld (heap w) (next_loc w) (shifts w) (device_to_shifts w)
       (alter (set_state "onOffState" (VBool false)) (device_id s) (devices w))
       (trace w ++ [UpdateStateOnServer (device_id s) "onOffState" (VBool false);
                    DeviceTurnOff (current_shift_device_id s)])).
Proof.
  intros Hs Hh Hd Hdv. destruct w as [h n sh idx dvs tr]. simpl in *.
  py_run. rewrite <- app_assoc. reflexivity.
Qed.

(** Neither callback ever writes a [Shift] object, whatever the action
    and the world. *)
Lemma turn_on_off_shift_heap (action : Action) (w : World) :
  heap (world_after (turn_on_shift action) w) = heap w
  /\ heap (world_after (turn_off_shift action) w) = heap w.
Proof.
  destruct w as [h n sh idx dvs tr].
  unfold world_after. py_unfold. cbn.
  split.
  all: destruct (sh !! deviceId action) as [l|]; cbn; [|reflexivity].
  all: destruct (h !! l) as [s|]; cbn; [|reflexivity].
  all: destruct (dvs !! current_shift_device_id s); cbn; [|reflexivity].
  all: destruct (dvs !! device_id s); cbn; reflexivity.
Qed.

(** The method [Shift.turn_on], which the plugin never calls, does write
    the field. *)
Lemma turn_on_run (l : loc) (w : World) (s : Shift) (d dv : Device) :
  heap w !! l = Some s ->
  devices w !! current_shift_device_id s = Some d ->
  devices w !! device_id s = Some dv ->
  turn_on l w =
    (Return tt,
     mkWorld (<[l := set_onOffState (VBool true) s]> (heap w)) (next_loc w)
       (shifts w) (device_to_shifts w)
       (alter (set_state "onOffState" (VBool true)) (device_id s) (devices w))
       (trace w ++ [DeviceTurnOn (current_shift_device_id s);
                    UpdateStateOnServer (device_id s) "onOffState" (VBool true)])).
Proof.
  intros Hh Hd Hdv. destruct w as [h n sh idx dvs tr]. simpl in *.
  py_run. rewrite <- app_assoc. reflexivity.
Qed.

(** C1.  The porch shift (day lamp 10, night lamp 20, mode day) with
    [onOffState] false is turned on through [turn_on_shift]: the value
    true is published for the virtual device and exactly one power
    command, a turn-on, goes to the day lamp, but the cached [onOffState]
    of the shift is still false afterwards.  Likewise [turn_off_shift] on
    the shift whose cached state is true leaves it true.  The method
    [Shift.turn_on] run on the same shift does set the field. *)
Theorem turn_on_shift_leaves_cached_state :
  let on := mkAction 1 TurnOn no_props in
  let off := mkAction 1 TurnOff no_props in
  let w1 := world_after (turn_on_shift on) w_porch in
  let w2 := world_after (turn_off_shift off) w_porch_on in
  (outcome (turn_on_shift on) w_porch = Return tt
   /\ cached_onOffState w_porch 1 = Some (VBool false)
   /\ cached_onOffState w1 1 = Some (VBool false)
   /\ published w1 1 "onOffState" = Some (VBool true)
   /\ trace w1 = trace w_porch
                 ++ [UpdateStateOnServer 1 "onOffState" (VBool true);
                     DeviceTurnOn 10])
  /\ (outcome (turn_off_shift off) w_porch_on = Return tt
      /\ cached_onOffState w_porch_on 1 = Some (VBool true)
      /\ cached_onOffState w2 1 = Some (VBool true)
      /\ published w2 1 "onOffState" = Some (VBool false)
      /\ trace w2 = trace w_porch_on
                    ++ [UpdateStateOnServer 1 "onOffState" (VBool false);
                        DeviceTurnOff 10])
  /\ cached_onOffState (world_after (turn_on 0%nat) w_porch) 1
     = Some (VBool true).
Proof. vm_compute. repeat split. Qed.

(* ===================================================================== *)
(** ** Identifiers that are not registered *)
(* ===================================================================== *)

(** C7.  When [k] is not a key of the registry, every callback that
    looks a shift up under [k] ends with an exception: [deviceStopComm]
    on the missing key, the others on the first attribute of the [None]
    that [dict.get] returned.  Nothing was done before that point: the
    registry, the index, the objects and the server's states are as they
    were, and no command was sent ([actionControlDevice] has at most
    written its log line). *)
Theorem unknown_shift_fails_fast (w : World) (k : Z) (dev : Device)
        (action : Action) :
  shifts w !! k = None ->
  dev_id dev = k ->
  deviceId action = k ->
  deviceStopComm dev w = (Raise KeyError, w)
  /\ turn_on_shift action w = (Raise AttributeError, w)
  /\ turn_off_shift action w = (Raise AttributeError, w)
  /\ (exists e, set_shift action w = (Raise e, w))
  /\ (deviceAction action = TurnOn \/ deviceAction action = TurnOff
      \/ deviceAction action = RequestStatus ->
      exists e w',
        actionControlDevice action w = (Raise e, w')
        /\ heap w' = heap w /\ shifts w' = shifts w
        /\ device_to_shifts w' = device_to_shifts w
        /\ devices w' = devices w
        /\ (trace w' = trace w
            \/ exists msg, trace w' = trace w ++ [LoggerInfo msg])).
Proof.
  intros Hk Hdev Hact. destruct w as [h n sh idx dvs tr]. simpl in *.
  subst k. repeat split.
  - py_run. reflexivity.
  - py_run. reflexivity.
  - py_run. reflexivity.
  - py_unfold. cbn. destruct (props action !! "mode"); cbn.
    + rewrite Hact, Hk. cbn. eauto.
    + eauto.
  - intros Hcase. py_unfold. cbn.
    destruct (dvs !! deviceId action) as [d|]; cbn.
    + destruct Hcase as [E | [E | E]]; rewrite E; cbn; rewrite Hact, Hk; cbn;
        eexists _, _; (split; [reflexivity|]); cbn; eauto 10.
    + eexists _, _. split; [reflexivity|]. cbn. eauto 10.
Qed.

Lemma unknown_shift_fails_fast_witness :
  deviceStopComm (the_device 2) w_porch = (Raise KeyError, w_porch)
  /\ turn_on_shift (mkAction 2 TurnOn no_props) w_porch
     = (Raise AttributeError, w_porch)
  /\ (exists e,
        set_shift (mkAction 2 TurnOn {[ "mode" := VStr "night" ]}) w_porch
        = (Raise e, w_porch))
  /\ (exists e w',
        actionControlDevice (mkAction 2 RequestStatus no_props) w_porch
        = (Raise e, w')).
Proof.
  pose proof (unknown_shift_fails_fast w_porch 2 (the_device 2)
                (mkAction 2 TurnOn no_props) eq_refl eq_refl eq_refl)
    as (Hstop & Hon & _ & _ & _).
  pose proof (unknown_shift_fails_fast w_porch 2 (the_device 2)
                (mkAction 2 TurnOn {[ "mode" := VStr "night" ]})
                eq_refl eq_refl eq_refl)
    as (_ & _ & _ & Hset & _).
  pose proof (unknown_shift_fails_fast w_porch 2 (the_device 2)
                (mkAction 2 RequestStatus no_props) eq_refl eq_refl eq_refl)
    as (_ & _ & _ & _ & Hreq).
  destruct (Hreq (or_intror (or_intror eq_refl))) as (e & w' & Hrun & _).
  repeat split; eauto.
Defined.

(* ===================================================================== *)
(** ** Requesting the status *)
(* ===================================================================== *)

(** The [RequestStatus] branch of [actionControlDevice] on a registered
    shift, in one equation. *)
Lemma request_status_run (action : Action) (w : World) (l : loc) (s : Shift)
      (d dm : Device) :
  deviceAction action = RequestStatus ->
  devices w !! deviceId action = Some d ->
  shifts w !! deviceId action = Some l ->
  heap w !! l = Some s ->
  devices w !! current_shift_device_id s = Some dm ->
  actionControlDevice action w =
    (Return tt,
     mkWorld (heap w) (next_loc w) (shifts w) (device_to_shifts w)
       (alter (set_state "onOffState" (states_get dm "onOffState"))
          (deviceId action)
          (alter (set_state "mode" (mode s)) (deviceId action)
             (alter (set_state "onOffState" (onOffState s)) (deviceId action)
                (devices w))))
       (trace w
          ++ [LoggerInfo (SentStatusRequest (name d));
              RefreshFromServer (current_shift_device_id s);
              UpdateStateOnServer (deviceId action) "onOffState" (onOffState s);
              UpdateStateOnServer (deviceId action) "mode" (mode s);
              UpdateStateOnServer (deviceId action) "onOffState"
                (states_get dm "onOffState")])).
Proof.
  intros Hact Hd Hs Hh Hdm. destruct w as [h n sh idx dvs tr]. simpl in *.
  py_run. rewrite <- !app_assoc. reflexivity.
Qed.

(** C4, as the specification words it, fails.  The porch shift has just
    been started (cached [onOffState] false) while the server holds its
    day lamp as switched on.  After the status request the virtual
    device's published [onOffState] is true, which is not the shift's
    cached value. *)
Lemma request_status_overwrites_cached_state :
  let action := mkAction 1 RequestStatus no_props in
  let w' := world_after (actionControlDevice action) w_porch in
  outcome (actionControlDevice action) w_porch = Return tt
  /\ cached_onOffState w_porch 1 = Some (VBool false)
  /\ cached_onOffState w' 1 = Some (VBool false)
  /\ published w' 1 "onOffState" = Some (VBool true)
  /\ published w' 1 "onOffState" <> cached_onOffState w' 1.
Proof. vm_compute. repeat split. discriminate. Qed.

(** C4, amended.  For a registered shift the status request asks for a
    refresh of the active underlying device, republishes the shift's
    cached [onOffState] and [mode], and then publishes the [onOffState]
    the server reports for the active underlying device; that last value
    is what the virtual device shows after the call.  The shift's cached
    fields are not changed. *)
Theorem request_status_publishes_reported_state (action : Action) (w : World)
        (l : loc) (s : Shift) (d dm : Device) :
  deviceAction action = RequestStatus ->
  devices w !! deviceId action = Some d ->
  shifts w !! deviceId action = Some l ->
  heap w !! l = Some s ->
  devices w !! current_shift_device_id s = Some dm ->
  exists w',
    actionControlDevice action w = (Return tt, w')
    /\ trace w' =
         trace w
         ++ [LoggerInfo (SentStatusRequest (name d));
             RefreshFromServer (current_shift_device_id s);
             UpdateStateOnServer (deviceId action) "onOffState" (onOffState s);
             UpdateStateOnServer (deviceId action) "mode" (mode s);
             UpdateStateOnServer (deviceId action) "onOffState"
               (reported w (current_shift_device_id s) "onOffState")]
    /\ published w' (deviceId action) "onOffState"
       = Some (reported w (current_shift_device_id s) "onOffState")
    /\ published w' (deviceId action) "mode" = Some (mode s)
    /\ heap w' = heap w
    /\ cached_onOffState w' (deviceId action) = Some (onOffState s).
Proof.
  intros Hact Hd Hs Hh Hdm.
  eexists. split; [apply (request_status_run _ _ _ _ _ _ Hact Hd Hs Hh Hdm)|].
  assert (Hrep : reported w (current_shift_device_id s) "onOffState"
                 = states_get dm "onOffState").
  { unfold reported, published, states_get. rewrite Hdm. reflexivity. }
  rewrite Hrep. unfold published, cached_onOffState. cbn.
  rewrite !lookup_alter_eq, Hd, Hs. cbn. rewrite Hh. cbn.
  repeat split.
  - apply lookup_insert_eq.
  - rewrite lookup_insert_ne by discriminate. apply lookup_insert_eq.
Qed.

Lemma request_status_publishes_reported_state_witness :
  let action := mkAction 1 RequestStatus no_props in
  exists w',
    actionControlDevice action w_porch = (Return tt, w')
    /\ published w' 1 "onOffState" = Some (VBool true)
    /\ published w' 1 "mode" = Some DAY
    /\ cached_onOffState w' 1 = Some (VBool false).
Proof.
  intros action.
  destruct (request_status_publishes_reported_state action w_porch 0%nat
              (mkShift 1 (VBool false) DAY 10 20)
              (set_state "mode" (VStr "day") (the_device 1)) (the_device 10)
              eq_refl eq_refl eq_refl eq_refl eq_refl)
    as (w' & Hrun & _ & Hpub & Hmode & _ & Hcached).
  exists w'. repeat split; assumption.
Defined.

(* ===================================================================== *)
(** ** A monitored device changed *)
(* ===================================================================== *)

(** The test of [deviceUpdated], read as a proposition. *)
Lemma is_active_target_spec (s : Shift) (d : Z) :
  is_active_target s d = true <->
  (mode s = DAY /\ day_device_id s = d)
  \/ (mode s = NIGHT /\ night_device_id s = d).
Proof.
  unfold is_active_target, DAY, NIGHT.
  rewrite orb_true_iff, !andb_true_iff, !py_eq_str, !Z.eqb_eq. reflexivity.
Qed.

Lemma is_active_target_mirror (d d' : Z) (v : value) (s : Shift) :
  is_active_target (mirror d v s) d' = is_active_target s d'.
Proof. unfold mirror. destruct (is_active_target s d); reflexivity. Qed.

Lemma device_id_mirror (d : Z) (v : value) (s : Shift) :
  device_id (mirror d v s) = device_id s.
Proof. unfold mirror. destruct (is_active_target s d); reflexivity. Qed.

Lemma mirror_idemp (d : Z) (v : value) (s : Shift) :
  mirror d v (mirror d v s) = mirror d v s.
Proof.
  unfold mirror at 1. rewrite is_active_target_mirror.
  unfold mirror. destruct (is_active_target s d) eqn:E; [|reflexivity].
  reflexivity.
Qed.

Lemma set_state_idemp (key : string) (v : value) (d : Device) :
  set_state key v (set_state key v d) = set_state key v d.
Proof. unfold set_state. cbn. rewrite insert_insert_eq. reflexivity. Qed.

Lemma omap_cons_list {A B} (f : A -> option B) (x : A) (l : list A) :
  omap f (x :: l) = option_list (f x) ++ omap f l.
Proof. cbn. destruct (f x); reflexivity. Qed.

Lemma omap_pointwise {A B} (f g : A -> option B) (l : list A) :
  (forall x, f x = g x) -> omap f l = omap g l.
Proof.
  intros E. induction l as [|x l IH]; [reflexivity|].
  rewrite !omap_cons_list, IH, E. reflexivity.
Qed.

(** One turn of the loop of [deviceUpdated]. *)
Lemma deviceUpdated_body_run (new_dev : Device) (l : loc) (w : World)
      (s : Shift) (dv : Device) :
  heap w !! l = Some s ->
  devices w !! device_id s = Some dv ->
  deviceUpdated_body new_dev l w =
    (Return tt,
     if is_active_target s (dev_id new_dev)
     then mkWorld
            (<[l := set_onOffState (states_get new_dev "onOffState") s]> (heap w))
            (next_loc w) (shifts w) (device_to_shifts w)
            (alter (set_state "onOffState" (states_get new_dev "onOffState"))
               (device_id s) (devices w))
            (trace w ++ [UpdateStateOnServer (device_id s) "onOffState"
                           (states_get new_dev "onOffState")])
     else w).
Proof.
  intros Hh Hd. destruct w as [h n sh idx dvs tr]. simpl in *.
  unfold is_active_target, DAY, NIGHT.
  py_unfold. cbn. rewrite Hh. cbn.
  destruct (py_eq (mode s) (VStr "day") && (day_device_id s =? dev_id new_dev)%Z)
    eqn:E1; cbn.
  - rewrite Hh. cbn. rewrite lookup_insert_eq. cbn. rewrite Hd. cbn. reflexivity.
  - destruct (py_eq (mode s) (VStr "night")
              && (night_device_id s =? dev_id new_dev)%Z) eqn:E2; cbn.
    + rewrite Hh. cbn. rewrite lookup_insert_eq. cbn. rewrite Hd. cbn.
      reflexivity.
    + reflexivity.
Qed.

Lemma publishes_spec (h : gmap loc Shift) (d : Z) (ls : list loc) (k : Z) :
  publishes h d ls k = true <->
  exists l s, l ∈ ls /\ h !! l = Some s
              /\ is_active_target s d = true /\ device_id s = k.
Proof.
  unfold publishes. rewrite existsb_exists. split.
  - intros (l & Hl & Hb). destruct (h !! l) as [s|] eqn:E; [|discriminate].
    apply andb_prop in Hb as [Ha Hk]. apply Z.eqb_eq in Hk.
    exists l, s. rewrite list_elem_of_In. auto.
  - intros (l & s & Hl & Hs & Ha & Hk). exists l.
    rewrite <- list_elem_of_In. split; [exact Hl|].
    rewrite Hs, Ha. cbn. apply Z.eqb_eq, Hk.
Qed.

Lemma not_publishes_spec (h : gmap loc Shift) (d : Z) (ls : list loc) (k : Z) :
  publishes h d ls k = false <->
  ~ exists l s, l ∈ ls /\ h !! l = Some s
                /\ is_active_target s d = true /\ device_id s = k.
Proof.
  rewrite <- publishes_spec.
  destruct (publishes h d ls k); split; congruence.
Qed.

(** The loop of [deviceUpdated] over the members of an index entry:
    every member is mirrored, one state is published per active member,
    nothing else changes. *)
Lemma deviceUpdated_loop (new_dev : Device) (ls : list loc) :
  let d := dev_id new_dev in
  let v := states_get new_dev "onOffState" in
  forall w : World,
    (forall l, l ∈ ls ->
       exists s dv, heap w !! l = Some s /\ devices w !! device_id s = Some dv) ->
    exists w',
      for_each ls (deviceUpdated_body new_dev) w = (Return tt, w')
      /\ (forall l, l ∈ ls -> heap w' !! l = mirror d v <$> heap w !! l)
      /\ (forall l, l ∉ ls -> heap w' !! l = heap w !! l)
      /\ next_loc w' = next_loc w
      /\ shifts w' = shifts w
      /\ device_to_shifts w' = device_to_shifts w
      /\ trace w' = trace w ++ omap (mirror_event (heap w) d v) ls
      /\ (forall k, publishes (heap w) d ls k = true ->
            devices w' !! k = set_state "onOffState" v <$> devices w !! k)
      /\ (forall k, publishes (heap w) d ls k = false ->
            devices w' !! k = devices w !! k).
Proof.
  intros d v. induction ls as [|l0 ls IH]; intros w Hlive.
  - exists w. cbn. split; [reflexivity|].
    repeat split; try reflexivity.
    + intros l Hl. inversion Hl.
    + symmetry. apply app_nil_r.
    + intros k Hk. discriminate.
  - destruct (Hlive l0 (list_elem_of_here _ _)) as (s0 & dv0 & Hs0 & Hdv0).
    cbn [for_each]. unfold bind at 1.
    rewrite (deviceUpdated_body_run new_dev l0 w s0 dv0 Hs0 Hdv0).
    fold d v.
    set (w1 := if is_active_target s0 d then _ else w).
    assert (Hheap1 : forall l, heap w1 !! l =
                       if decide (l = l0) then Some (mirror d v s0)
                       else heap w !! l).
    { intros l. subst w1. unfold mirror.
      destruct (is_active_target s0 d); cbn;
        destruct (decide (l = l0)) as [->|Hne].
      - apply lookup_insert_eq.
      - apply lookup_insert_ne. congruence.
      - exact Hs0.
      - reflexivity. }
    assert (Hdev1 : forall k, devices w1 !! k =
                      if decide (is_active_target s0 d = true /\ device_id s0 = k)
                      then set_state "onOffState" v <$> devices w !! k
                      else devices w !! k).
    { intros k. subst w1.
      destruct (is_active_target s0 d); cbn.
      - destruct (decide (true = true /\ device_id s0 = k)) as [[_ <-]|Hn].
        + apply lookup_alter_eq.
        + apply lookup_alter_ne. intros E. apply Hn. split; [reflexivity|exact E].
      - destruct (decide (false = true /\ device_id s0 = k)) as [[Hf _]|_];
          [discriminate|reflexivity]. }
    assert (Hrest1 : next_loc w1 = next_loc w /\ shifts w1 = shifts w
                     /\ device_to_shifts w1 = device_to_shifts w
                     /\ trace w1 = trace w
                          ++ option_list (mirror_event (heap w) d v l0)).
    { subst w1. cbn. unfold mirror_event at 1. rewrite Hs0. cbn.
      destruct (is_active_target s0 d); cbn; repeat split.
      symmetry. apply app_nil_r. }
    destruct Hrest1 as (Hn1 & Hsh1 & Hidx1 & Htr1).
    assert (Hev1 : forall l, mirror_event (heap w1) d v l
                             = mirror_event (heap w) d v l).
    { intros l. unfold mirror_event. rewrite Hheap1.
      destruct (decide (l = l0)) as [->|_]; [|reflexivity].
      rewrite Hs0. cbn.
      rewrite is_active_target_mirror, device_id_mirror. reflexivity. }
    assert (Hpub1 : forall k, publishes (heap w1) d ls k
                              = publishes (heap w) d ls k).
    { intros k. apply eq_true_iff_eq. rewrite !publishes_spec.
      split; intros (l & s & Hl & Hs & Ha & Hk).
      - rewrite Hheap1 in Hs. destruct (decide (l = l0)) as [->|_].
        + inversion Hs; subst s. exists l0, s0.
          rewrite is_active_target_mirror in Ha.
          rewrite device_id_mirror in Hk. auto.
        + exists l, s. auto.
      - destruct (decide (l = l0)) as [->|Hne].
        + exists l0, (mirror d v s0). rewrite Hheap1.
          destruct (decide (l0 = l0)); [|congruence].
          rewrite Hs0 in Hs. inversion Hs; subst s.
          rewrite is_active_target_mirror, device_id_mirror. auto.
        + exists l, s. rewrite Hheap1.
          destruct (decide (l = l0)); [congruence|]. auto. }
    destruct (IH w1) as (w' & Hrun & Hin & Hout & Hn & Hsh & Hidx & Htr
                         & Hpub & Hnpub).
    { intros l Hl. destruct (Hlive l (list_elem_of_further _ _ _ Hl))
        as (s & dv & Hs & Hdv).
      rewrite Hheap1. destruct (decide (l = l0)) as [->|_].
      - exists (mirror d v s0). rewrite device_id_mirror, Hdev1.
        destruct (decide _); rewrite Hdv0; cbn; eauto.
      - exists s. rewrite Hdev1.
        destruct (decide _); rewrite Hdv; cbn; eauto. }
    exists w'. split; [exact Hrun|].
    repeat split.
    + intros l Hl. destruct (decide (l ∈ ls)) as [Hls|Hls].
      * rewrite (Hin l Hls), Hheap1.
        destruct (decide (l = l0)) as [->|_]; [|reflexivity].
        rewrite Hs0. cbn. rewrite mirror_idemp. reflexivity.
      * rewrite (Hout l Hls), Hheap1.
        apply elem_of_cons in Hl as [->|Hl]; [|contradiction].
        destruct (decide (l0 = l0)); [|congruence].
        rewrite Hs0. reflexivity.
    + intros l Hl. rewrite not_elem_of_cons in Hl. destruct Hl as [Hne Hls].
      rewrite (Hout l Hls), Hheap1.
      destruct (decide (l = l0)); [contradiction|reflexivity].
    + congruence.
    + congruence.
    + congruence.
    + rewrite Htr, Htr1. rewrite <- app_assoc. f_equal.
      rewrite omap_cons_list. f_equal.
      apply omap_pointwise, Hev1.
    + intros k Hk0. apply publishes_spec in Hk0.
      destruct Hk0 as (l & s & Hl & Hs & Ha & Hk).
      destruct (publishes (heap w1) d ls k) eqn:Hp.
      * rewrite (Hpub k Hp), Hdev1.
        destruct (decide _); [|reflexivity].
        destruct (devices w !! k); cbn; [|reflexivity].
        rewrite set_state_idemp. reflexivity.
      * rewrite (Hnpub k Hp), Hdev1.
        apply elem_of_cons in Hl as [->|Hl].
        -- rewrite Hs0 in Hs. inversion Hs; subst s.
           destruct (decide _) as [_|Hcontra]; [reflexivity|].
           exfalso. apply Hcontra. auto.
        -- exfalso. rewrite Hpub1 in Hp. apply not_publishes_spec in Hp.
           apply Hp. exists l, s. auto.
    + intros k Hnp. apply not_publishes_spec in Hnp.
      assert (Hnp1 : publishes (heap w1) d ls k = false).
      { rewrite Hpub1. apply not_publishes_spec.
        intros (l & s & Hl & Hrest). apply Hnp.
        exists l, s. split; [apply list_elem_of_further, Hl|exact Hrest]. }
      rewrite (Hnpub k Hnp1), Hdev1.
      destruct (decide _) as [[Ha Hk]|_]; [|reflexivity].
      exfalso. apply Hnp. exists l0, s0.
      split; [apply list_elem_of_here|auto].
Qed.

(** C2.  [deviceUpdated] for a device [d] whose new [onOffState] is [v]
    visits the shifts that the index holds under [d].  A shift's
    [onOffState] becomes [v], and [v] is published for its virtual
    device, exactly when [d] is its active target (mode DAY and [d] its
    day device, or mode NIGHT and [d] its night device); a shift for
    which [d] is the inactive target keeps its [onOffState] and nothing
    is published for it.  When the index has no entry for [d] the call
    changes nothing. *)
Theorem deviceUpdated_mirrors_active_target (orig_dev new_dev : Device)
        (w : World) :
  let d := dev_id new_dev in
  let v := states_get new_dev "onOffState" in
  let members := default [] (device_to_shifts w !! d) in
  (forall l, l ∈ members ->
     exists s dv, heap w !! l = Some s /\ devices w !! device_id s = Some dv) ->
  exists w',
    deviceUpdated orig_dev new_dev w = (Return tt, w')
    /\ (forall l s, l ∈ members -> heap w !! l = Some s ->
          heap w' !! l
          = Some (if is_active_target s d then set_onOffState v s else s)
          /\ (is_active_target s d = true ->
              published w' (device_id s) "onOffState" = Some v))
    /\ (forall l, l ∉ members -> heap w' !! l = heap w !! l)
    /\ trace w' = trace w ++ omap (mirror_event (heap w) d v) members
    /\ (forall k, publishes (heap w) d members k = false ->
          devices w' !! k = devices w !! k)
    /\ shifts w' = shifts w
    /\ device_to_shifts w' = device_to_shifts w
    /\ (device_to_shifts w !! d = None -> w' = w).
Proof.
  intros d v members Hlive.
  unfold deviceUpdated, bind, get. cbn. fold d.
  subst members. destruct (device_to_shifts w !! d) as [ls|] eqn:Hidx; cbn in *.
  - destruct (deviceUpdated_loop new_dev ls w Hlive)
      as (w' & Hrun & Hin & Hout & _ & Hsh & Hdx & Htr & Hpub & Hnpub).
    exists w'. split; [exact Hrun|]. fold d v in Hin, Htr, Hpub, Hnpub.
    split; [|split; [exact Hout|split; [exact Htr|split; [exact Hnpub|]]]].
    + intros l s Hl Hs. split.
      * rewrite (Hin l Hl), Hs. reflexivity.
      * intros Ha. destruct (Hlive l Hl) as (s' & dv & Hs' & Hdv).
        assert (s' = s) by congruence. subst s'.
        unfold published. rewrite (Hpub (device_id s)).
        -- rewrite Hdv. cbn. apply lookup_insert_eq.
        -- apply publishes_spec. exists l, s. auto.
    + split; [exact Hsh|]. split; [exact Hdx|]. discriminate.
  - exists w. split; [reflexivity|].
    split; [|split; [reflexivity|split; [symmetry; apply app_nil_r|]]].
    + intros l s Hl. inversion Hl.
    + repeat split; reflexivity.
Qed.

Lemma deviceUpdated_mirrors_active_target_witness :
  exists w',
    deviceUpdated (the_device 10) (the_device 10) w_two = (Return tt, w')
    /\ cached_onOffState w_two 1 = Some (VBool false)
    /\ cached_onOffState w' 1 = Some (VBool true)
    /\ cached_onOffState w' 2 = Some (VBool false)
    /\ trace w' = trace w_two ++ [UpdateStateOnServer 1 "onOffState" (VBool true)].
Proof.
  assert (Hlive : forall l,
            l ∈ default [] (device_to_shifts w_two !! dev_id (the_device 10)) ->
            exists s dv, heap w_two !! l = Some s
                         /\ devices w_two !! device_id s = Some dv).
  { intros l Hl.
    change (l ∈ [0%nat; 1%nat]) in Hl.
    apply elem_of_cons in Hl as [->|Hl];
      [|apply elem_of_cons in Hl as [->|Hl]; [|inversion Hl]].
    - eexists _, _. split; reflexivity.
    - eexists _, _. split; reflexivity. }
  destruct (deviceUpdated_mirrors_active_target
              (the_device 10) (the_device 10) w_two Hlive)
    as (w' & Hrun & Hmem & _ & Htr & _ & Hsh & _ & _).
  exists w'. split; [exact Hrun|].
  destruct (Hmem 0%nat (mkShift 1 (VBool false) DAY 10 20)) as [H0 _];
    [apply list_elem_of_here | reflexivity |].
  destruct (Hmem 1%nat (mkShift 2 (VBool false) NIGHT 10 30)) as [H1 _];
    [apply list_elem_of_further, list_elem_of_here | reflexivity |].
  unfold cached_onOffState. rewrite Hsh.
  change (shifts w_two !! 1) with (Some 0%nat).
  change (shifts w_two !! 2) with (Some 1%nat).
  cbn. rewrite H0, H1. repeat split. exact Htr.
Defined.

(* ===================================================================== *)
(** ** Sets of shifts *)
(* ===================================================================== *)

Lemma same_key_refl (h : gmap loc Shift) (l : loc) : same_key h l l = true.
Proof.
  unfold same_key. destruct (h !! l); rewrite Nat.eqb_refl; [|reflexivity].
  rewrite Z.eqb_refl. reflexivity.
Qed.

(** Two different references are the same key only for objects with the
    same [device_id]. *)
Lemma same_key_device_id (h : gmap loc Shift) (l x : loc) :
  same_key h l x = true -> x <> l ->
  exists s sx, h !! l = Some s /\ h !! x = Some sx
               /\ device_id sx = device_id s.
Proof.
  unfold same_key. intros Hk Hne.
  destruct (h !! l) as [s|], (h !! x) as [sx|];
    try (apply Nat.eqb_eq in Hk; congruence).
  apply andb_prop in Hk as [Hh _]. apply Z.eqb_eq in Hh.
  exists s, sx. unfold Shift_hash in Hh. auto.
Qed.

Lemma set_add_contains (h : gmap loc Shift) (ls : list loc) (l : loc) :
  set_contains h (set_add h ls l) l = true.
Proof.
  unfold set_add. destruct (set_contains h ls l) eqn:E; [exact E|].
  unfold set_contains. rewrite existsb_app. cbn.
  rewrite same_key_refl. apply orb_true_iff. right. reflexivity.
Qed.

Lemma set_add_elem (h : gmap loc Shift) (ls : list loc) (l : loc) :
  (forall x s sx, x ∈ ls -> x <> l -> h !! l = Some s -> h !! x = Some sx ->
                  device_id sx <> device_id s) ->
  l ∈ set_add h ls l.
Proof.
  intros Hfresh. unfold set_add.
  destruct (set_contains h ls l) eqn:E.
  - unfold set_contains in E. apply existsb_exists in E as (x & Hx & Hk).
    apply list_elem_of_In in Hx.
    destruct (decide (x = l)) as [->|Hne]; [exact Hx|].
    destruct (same_key_device_id h l x Hk Hne) as (s & sx & Hs & Hsx & Hid).
    exfalso. exact (Hfresh x s sx Hx Hne Hs Hsx Hid).
  - apply elem_of_app. right. apply list_elem_of_here.
Qed.

Lemma set_add_subset (h : gmap loc Shift) (ls : list loc) (l x : loc) :
  x ∈ set_add h ls l -> x ∈ ls \/ x = l.
Proof.
  unfold set_add. destruct (set_contains h ls l); [auto|].
  intros Hx. apply elem_of_app in Hx as [Hx|Hx]; [auto|].
  apply list_elem_of_singleton in Hx. auto.
Qed.

(* ===================================================================== *)
(** ** Starting a shift *)
(* ===================================================================== *)

Lemma mode_check (m0 : value) :
  is_none m0 || negb (py_in m0 STATES)
  = negb (bool_decide (m0 = DAY \/ m0 = NIGHT)).
Proof.
  unfold py_in, STATES, DAY, NIGHT. cbn.
  destruct (bool_decide_reflect (m0 = VStr "day" \/ m0 = VStr "night"))
    as [[->| ->]|Hn]; [reflexivity..|].
  destruct (py_eq m0 (VStr "day")) eqn:E1.
  { apply py_eq_str in E1. tauto. }
  destruct (py_eq m0 (VStr "night")) eqn:E2.
  { apply py_eq_str in E2. tauto. }
  cbn. apply orb_true_r.
Qed.

(** [Plugin.deviceStartComm] on a device whose configuration names its
    two targets, in one equation. *)
Lemma deviceStartComm_run (dev : Device) (w : World) (dp np dm : value)
      (day night : Z) :
  let m0 := states_get dev "mode" in
  let valid := bool_decide (m0 = DAY \/ m0 = NIGHT) in
  let l := next_loc w in
  let sh := mkShift (dev_id dev) (VBool false) (if valid then m0 else dm)
                    day night in
  let h' := <[l := sh]> (heap w) in
  let idx1 := <[day := set_add h' (default [] (device_to_shifts w !! day)) l]>
                (device_to_shifts w) in
  let idx2 := <[night := set_add h' (default [] (idx1 !! night)) l]> idx1 in
  pluginProps dev !! "day_device_id" = Some dp ->
  py_int dp = inl day ->
  pluginProps dev !! "night_device_id" = Some np ->
  py_int np = inl night ->
  (m0 <> DAY -> m0 <> NIGHT -> pluginProps dev !! "default_mode" = Some dm) ->
  deviceStartComm dev w =
    (Return tt,
     mkWorld h' (S l) (<[dev_id dev := l]> (shifts w)) idx2
       (if valid then devices w
        else alter (set_state "mode" dm) (dev_id dev) (devices w))
       (trace w
          ++ (if valid then []
              else [UpdateStateOnServer (dev_id dev) "mode" dm])
          ++ [LoggerInfo (ShiftStarted (name dev))])).
Proof.
  intros m0 valid l sh h' idx1 idx2 Hdp Hday Hnp Hnight Hdm.
  subst idx2 idx1 h' sh l valid.
  destruct w as [h n shs idx dvs tr]. cbn [heap next_loc shifts
    device_to_shifts devices trace].
  unfold deviceStartComm. unfold bind at 1. rewrite mode_check. fold m0.
  destruct (bool_decide_reflect (m0 = DAY \/ m0 = NIGHT)) as [Hv|Hv].
  - py_unfold. cbn. repeat (py_step; cbn). reflexivity.
  - assert (Hd : pluginProps dev !! "default_mode" = Some dm) by
      (apply Hdm; intros E; apply Hv; auto).
    assert (Hm : states_get (set_state "mode" dm dev) "mode" = dm).
    { unfold states_get, set_state. cbn. rewrite lookup_insert_eq. reflexivity. }
    py_unfold. cbn. repeat (py_step; cbn).
    rewrite <- !app_assoc. reflexivity.
Qed.

Lemma elem_of_default_lookup (idx : gmap Z (list loc)) (k : Z) (x : loc) :
  x ∈ default [] (idx !! k) -> exists ls, idx !! k = Some ls /\ x ∈ ls.
Proof.
  destruct (idx !! k) as [ls|]; cbn; intros Hx; [eauto|inversion Hx].
Qed.

(** The two index entries after the two [setdefault(...).add(shift)]. *)
Lemma start_index_entries (h' : gmap loc Shift) (idx : gmap Z (list loc))
      (day night : Z) (l : loc) :
  let idx1 := <[day := set_add h' (default [] (idx !! day)) l]> idx in
  let idx2 := <[night := set_add h' (default [] (idx1 !! night)) l]> idx1 in
  forall k, k = day \/ k = night ->
    exists ls,
      idx2 !! k = Some ls
      /\ set_contains h' ls l = true
      /\ ((forall k0 ls0 x s sx,
             idx !! k0 = Some ls0 -> x ∈ ls0 -> x <> l ->
             h' !! l = Some s -> h' !! x = Some sx ->
             device_id sx <> device_id s) ->
          l ∈ ls).
Proof.
  intros idx1 idx2 k Hk.
  assert (Hold : forall x, x ∈ default [] (idx1 !! night) -> x <> l ->
                   exists k0 ls0, idx !! k0 = Some ls0 /\ x ∈ ls0).
  { intros x Hx Hne. subst idx1.
    destruct (decide (day = night)) as [->|Hdn].
    - rewrite lookup_insert_eq in Hx. cbn in Hx.
      apply set_add_subset in Hx as [Hx|Hx]; [|contradiction].
      apply elem_of_default_lookup in Hx as (ls0 & H0 & Hx). eauto.
    - rewrite lookup_insert_ne in Hx by exact Hdn.
      apply elem_of_default_lookup in Hx as (ls0 & H0 & Hx). eauto. }
  assert (Hnight : exists ls,
             idx2 !! night = Some ls /\ set_contains h' ls l = true
             /\ ((forall k0 ls0 x s sx,
                    idx !! k0 = Some ls0 -> x ∈ ls0 -> x <> l ->
                    h' !! l = Some s -> h' !! x = Some sx ->
                    device_id sx <> device_id s) ->
                 l ∈ ls)).
  { eexists. split; [apply lookup_insert_eq|].
    split; [apply set_add_contains|].
    intros Hfresh. apply set_add_elem. intros x s sx Hx Hne Hs Hsx.
    destruct (Hold x Hx Hne) as (k0 & ls0 & H0 & Hx0).
    exact (Hfresh k0 ls0 x s sx H0 Hx0 Hne Hs Hsx). }
  destruct Hk as [->| ->]; [|exact Hnight].
  destruct (decide (day = night)) as [->|Hdn]; [exact Hnight|].
  eexists. split.
  { subst idx2. rewrite lookup_insert_ne by congruence.
    apply lookup_insert_eq. }
  split; [apply set_add_contains|].
  intros Hfresh. apply set_add_elem. intros x s sx Hx Hne Hs Hsx.
  apply elem_of_default_lookup in Hx as (ls0 & H0 & Hx0).
  exact (Hfresh day ls0 x s sx H0 Hx0 Hne Hs Hsx).
Qed.

(** C5.  [deviceStartComm] on a device whose configuration holds the two
    target identifiers (and a default mode, should it be needed) returns
    normally.  Afterwards the registry holds, under the device's
    identifier, a shift whose [onOffState] is false and whose targets are
    the configured ones; the index entry of the day device and the index
    entry of the night device both contain that shift; the shift's mode
    is the mode the server reported if that is DAY or NIGHT, and the
    configured default mode otherwise.  Where no shift with this
    identifier was in the index before, the entries hold the new object
    itself. *)
Theorem deviceStartComm_registers_shift (dev : Device) (w : World)
        (dp np dm : value) (day night : Z) :
  let m0 := states_get dev "mode" in
  pluginProps dev !! "day_device_id" = Some dp ->
  py_int dp = inl day ->
  pluginProps dev !! "night_device_id" = Some np ->
  py_int np = inl night ->
  (m0 <> DAY -> m0 <> NIGHT -> pluginProps dev !! "default_mode" = Some dm) ->
  exists w' l s,
    deviceStartComm dev w = (Return tt, w')
    /\ shifts w' !! dev_id dev = Some l
    /\ heap w' !! l = Some s
    /\ device_id s = dev_id dev
    /\ onOffState s = VBool false
    /\ day_device_id s = day
    /\ night_device_id s = night
    /\ (m0 = DAY \/ m0 = NIGHT -> mode s = m0)
    /\ (m0 <> DAY -> m0 <> NIGHT -> mode s = dm)
    /\ (forall k, k = day \/ k = night ->
          exists ls,
            device_to_shifts w' !! k = Some ls
            /\ set_contains (heap w') ls l = true
            /\ ((forall k0 ls0 x sx,
                   device_to_shifts w !! k0 = Some ls0 -> x ∈ ls0 ->
                   heap w !! x = Some sx -> device_id sx <> dev_id dev) ->
                l ∈ ls)).
Proof.
  intros m0 Hdp Hday Hnp Hnight Hdm.
  eexists _, _, _.
  split; [apply (deviceStartComm_run dev w dp np dm day night
                   Hdp Hday Hnp Hnight Hdm)|].
  cbn. fold m0.
  split; [apply lookup_insert_eq|].
  split; [apply lookup_insert_eq|].
  cbn. repeat split.
  - intros Hv. rewrite bool_decide_eq_true_2 by exact Hv. reflexivity.
  - intros H1 H2. rewrite bool_decide_eq_false_2 by tauto. reflexivity.
  - intros k Hk.
    destruct (start_index_entries
                (<[next_loc w := mkShift (dev_id dev) (VBool false)
                     (if bool_decide (m0 = DAY \/ m0 = NIGHT) then m0 else dm)
                     day night]> (heap w))
                (device_to_shifts w) day night (next_loc w) k Hk)
      as (ls & Hls & Hc & He).
    exists ls. split; [exact Hls|]. split; [exact Hc|].
    intros Hfresh. apply He. intros k0 ls0 x s sx H0 Hx Hne Hs Hsx.
    rewrite lookup_insert_eq in Hs. inversion Hs; subst s. cbn.
    rewrite lookup_insert_ne in Hsx by congruence.
    exact (Hfresh k0 ls0 x sx H0 Hx Hsx).
Qed.

Lemma deviceStartComm_registers_shift_witness :
  exists w' l s,
    deviceStartComm (the_device 2) w_porch = (Return tt, w')
    /\ shifts w' !! 2 = Some l
    /\ heap w' !! l = Some s
    /\ onOffState s = VBool false
    /\ mode s = NIGHT
    /\ (exists ls, device_to_shifts w' !! 10 = Some ls /\ l ∈ ls)
    /\ (exists ls, device_to_shifts w' !! 30 = Some ls /\ l ∈ ls).
Proof.
  destruct (deviceStartComm_registers_shift (the_device 2) w_porch
              (VStr "10") (VStr "30") (VStr "day") 10 30
              eq_refl eq_refl eq_refl eq_refl)
    as (w' & l & s & Hrun & Hreg & Hheap & _ & Hon & _ & _ & Hmode & _ & Hidx).
  { intros _ Hn. exfalso. apply Hn. reflexivity. }
  assert (Hfresh : forall k0 ls0 x sx,
            device_to_shifts w_porch !! k0 = Some ls0 -> x ∈ ls0 ->
            heap w_porch !! x = Some sx -> device_id sx <> dev_id (the_device 2)).
  { intros k0 ls0 x sx _ _ Hsx E.
    destruct x as [|x].
    - vm_compute in Hsx. inversion Hsx; subst sx. discriminate E.
    - assert (Hnone : heap w_porch !! S x = None).
      { change (heap w_porch) with
          (<[0%nat := mkShift 1 (VBool false) DAY 10 20]> (∅ : gmap loc Shift)).
        rewrite lookup_insert_ne by discriminate. apply lookup_empty. }
      congruence. }
  destruct (Hidx 10 (or_introl eq_refl)) as (ls1 & H1 & _ & Hin1).
  destruct (Hidx 30 (or_intror eq_refl)) as (ls2 & H2 & _ & Hin2).
  exists w', l, s. repeat split; try assumption.
  - apply Hmode. right. reflexivity.
  - exists ls1. auto.
  - exists ls2. auto.
Defined.

(** The porch shift is started without a mode on the server: it takes
    the configured default. *)
Example deviceStartComm_default_mode :
  cached_mode w_porch 1 = Some DAY
  /\ published w_porch 1 "mode" = Some DAY
  /\ published w_boot 1 "mode" = None.
Proof. vm_compute. repeat split. Qed.

(** A configuration whose target identifier [int] rejects is outside the
    hypotheses above: the call then ends in the [ValueError] of [int],
    before any shift is built. *)
Example deviceStartComm_unset_target :
  let dev := mkDevice 4 "Unset shift" ∅
               {[ "default_mode" := VStr "day";
                  "day_device_id" := VStr "";
                  "night_device_id" := VStr "20" ]} in
  outcome (deviceStartComm dev) w_boot = Raise ValueError
  /\ shifts (world_after (deviceStartComm dev) w_boot) !! 4 = None.
Proof. vm_compute. split; reflexivity. Qed.

(* ===================================================================== *)
(** ** Stopping a shift *)
(* ===================================================================== *)

Lemma without_not_elem (l : loc) (ls : list loc) : l ∉ without l ls.
Proof.
  unfold without. rewrite list_elem_of_In, filter_In.
  intros [_ H]. rewrite Nat.eqb_refl in H. discriminate.
Qed.

Lemma without_elem (l x : loc) (ls : list loc) :
  x ∈ without l ls <-> x ∈ ls /\ x <> l.
Proof.
  unfold without. rewrite !list_elem_of_In, filter_In.
  rewrite negb_true_iff, Nat.eqb_neq. reflexivity.
Qed.

Lemma without_id (l : loc) (ls : list loc) : l ∉ ls -> without l ls = ls.
Proof.
  induction ls as [|x ls IH]; [reflexivity|].
  intros Hn. apply not_elem_of_cons in Hn as [Hne Hn].
  unfold without in *. cbn.
  destruct (Nat.eqb_spec x l) as [E|_]; [congruence|].
  cbn. rewrite IH by exact Hn. reflexivity.
Qed.

Lemma sole_member_cons (h : gmap loc Shift) (x l : loc) (ls : list loc) :
  sole_member h (x :: ls) l = true ->
  (x = l /\ l ∉ ls) \/ (x <> l /\ same_key h l x = false
                        /\ sole_member h ls l = true).
Proof.
  unfold sole_member. intros H.
  apply andb_prop in H as [Hc Hf]. apply Nat.eqb_eq in Hc.
  cbn [forallb] in Hf. apply andb_prop in Hf as [Hx Hf].
  destruct (Nat.eq_dec x l) as [E|Hne].
  - left. split; [exact E|]. subst x.
    rewrite count_occ_cons_eq in Hc by reflexivity.
    rewrite list_elem_of_In. apply (count_occ_not_In Nat.eq_dec). lia.
  - right. rewrite count_occ_cons_neq in Hc by exact Hne.
    split; [exact Hne|]. split.
    + apply orb_prop in Hx as [Hx|Hx].
      * apply negb_true_iff, Hx.
      * apply Nat.eqb_eq in Hx. contradiction.
    + rewrite Hf. apply Nat.eqb_eq in Hc. rewrite Hc. reflexivity.
Qed.

Lemma sole_member_elem (h : gmap loc Shift) (ls : list loc) (l : loc) :
  sole_member h ls l = true -> l ∈ ls.
Proof.
  unfold sole_member. intros H. apply andb_prop in H as [Hc _].
  apply Nat.eqb_eq in Hc. rewrite list_elem_of_In.
  apply (count_occ_In Nat.eq_dec). lia.
Qed.

Lemma sole_member_others (h : gmap loc Shift) (ls : list loc) (l x : loc) :
  sole_member h ls l = true -> x ∈ ls -> x <> l -> same_key h l x = false.
Proof.
  unfold sole_member. intros H Hx Hne. apply andb_prop in H as [_ Hf].
  rewrite forallb_forall in Hf. apply list_elem_of_In in Hx.
  specialize (Hf x Hx). apply orb_prop in Hf as [Hf|Hf].
  - apply negb_true_iff, Hf.
  - apply Nat.eqb_eq in Hf. contradiction.
Qed.

(** [remove] takes out the shift itself when it is a sole member. *)
Lemma set_remove_sole (h : gmap loc Shift) (ls : list loc) (l : loc) :
  sole_member h ls l = true -> set_remove h ls l = Some (without l ls).
Proof.
  induction ls as [|x ls IH]; [discriminate|].
  intros H. apply sole_member_cons in H as [[-> Hn]|(Hne & Hk & Hs)].
  - cbn [set_remove]. rewrite same_key_refl.
    unfold without. cbn [List.filter]. rewrite Nat.eqb_refl. cbn [negb].
    fold (without l ls). rewrite without_id by exact Hn. reflexivity.
  - cbn [set_remove]. rewrite Hk, (IH Hs).
    unfold without. cbn [List.filter fmap option_fmap option_map].
    destruct (Nat.eqb_spec x l) as [E|_]; [contradiction|]. reflexivity.
Qed.

Lemma set_contains_without (h : gmap loc Shift) (ls : list loc) (l : loc) :
  sole_member h ls l = true -> set_contains h (without l ls) l = false.
Proof.
  intros H. unfold set_contains.
  destruct (existsb (same_key h l) (without l ls)) eqn:E; [|reflexivity].
  apply existsb_exists in E as (x & Hx & Hk).
  apply list_elem_of_In, without_elem in Hx as [Hx Hne].
  rewrite (sole_member_others h ls l x H Hx Hne) in Hk. discriminate.
Qed.

(** [remove] of something the set does not hold is a [KeyError]. *)
Lemma set_remove_absent (h : gmap loc Shift) (ls : list loc) (l : loc) :
  set_contains h ls l = false -> set_remove h ls l = None.
Proof.
  unfold set_contains. induction ls as [|x ls IH]; [reflexivity|].
  cbn. intros H. apply orb_false_elim in H as [Hx Hls].
  rewrite Hx, (IH Hls). reflexivity.
Qed.

Lemma without_nil (h : gmap loc Shift) (ls : list loc) (l : loc) :
  sole_member h ls l = true -> without l ls = [] -> ls = [l].
Proof.
  destruct ls as [|x ls]; [discriminate|].
  intros H Hw. apply sole_member_cons in H as [[-> Hn]|(Hne & _ & Hs)].
  - unfold without in Hw. cbn [List.filter] in Hw.
    rewrite Nat.eqb_refl in Hw. cbn [negb] in Hw.
    fold (without l ls) in Hw. rewrite without_id in Hw by exact Hn.
    subst ls. reflexivity.
  - unfold without in Hw. cbn [List.filter] in Hw.
    destruct (Nat.eqb_spec x l) as [E|_]; [contradiction|].
    discriminate.
Qed.

Lemma without_singleton (l : loc) : without l [l] = [].
Proof. unfold without. cbn. rewrite Nat.eqb_refl. reflexivity. Qed.

(** Removing a sole member from the entry under [k], and pruning. *)
Lemma remove_and_prune_run (k : Z) (l : loc) (w : World) (ls : list loc) :
  device_to_shifts w !! k = Some ls ->
  sole_member (heap w) ls l = true ->
  remove_and_prune k l w =
    (Return tt,
     mkWorld (heap w) (next_loc w) (shifts w)
       (pruned k l ls (device_to_shifts w)) (devices w) (trace w)).
Proof.
  intros Hk Hsole. destruct w as [h n sh idx dvs tr]. cbn in *.
  py_unfold. cbn. rewrite Hk. cbn.
  rewrite (set_remove_sole h ls l Hsole). cbn.
  rewrite lookup_insert_eq. cbn. unfold pruned.
  destruct (decide (ls = [l])) as [->|Hne].
  - rewrite without_singleton. cbn. rewrite delete_insert_eq. reflexivity.
  - destruct (without l ls) as [|y ys] eqn:E.
    + exfalso. apply Hne. exact (without_nil h ls l Hsole E).
    + cbn. reflexivity.
Qed.

(** Removing a shift from an entry that no longer exists, or that no
    longer holds it, is a [KeyError]; nothing changes. *)
Lemma remove_and_prune_fails (k : Z) (l : loc) (w : World) :
  (forall ls, device_to_shifts w !! k = Some ls ->
              set_contains (heap w) ls l = false) ->
  remove_and_prune k l w = (Raise KeyError, w).
Proof.
  intros Habs. destruct w as [h n sh idx dvs tr]. cbn in *.
  py_unfold. cbn. destruct (idx !! k) as [ls|] eqn:E; cbn; [|reflexivity].
  rewrite (set_remove_absent h ls l (Habs ls eq_refl)). reflexivity.
Qed.

Lemma pruned_lookup (k : Z) (l : loc) (ls : list loc)
      (idx : gmap Z (list loc)) (k' : Z) :
  pruned k l ls idx !! k' =
    if decide (k' = k)
    then (if decide (ls = [l]) then None else Some (without l ls))
    else idx !! k'.
Proof.
  unfold pruned. destruct (decide (k' = k)) as [->|Hne];
    destruct (decide (ls = [l])).
  - apply lookup_delete_eq.
  - apply lookup_insert_eq.
  - apply lookup_delete_ne. congruence.
  - apply lookup_insert_ne. congruence.
Qed.

Lemma pruned_lookup_eq (k : Z) (l : loc) (ls : list loc)
      (idx : gmap Z (list loc)) :
  pruned k l ls idx !! k
  = if decide (ls = [l]) then None else Some (without l ls).
Proof. rewrite pruned_lookup. destruct (decide (k = k)); congruence. Qed.

Lemma pruned_lookup_ne (k : Z) (l : loc) (ls : list loc)
      (idx : gmap Z (list loc)) (k' : Z) :
  k' <> k -> pruned k l ls idx !! k' = idx !! k'.
Proof.
  intros Hne. rewrite pruned_lookup. destruct (decide (k' = k)); congruence.
Qed.

(** [Plugin.deviceStopComm] on a registered shift with two different
    targets, in one equation. *)
Lemma deviceStopComm_run (dev : Device) (w : World) (l : loc) (s : Shift)
      (lsd lsn : list loc) :
  shifts w !! dev_id dev = Some l ->
  heap w !! l = Some s ->
  device_to_shifts w !! day_device_id s = Some lsd ->
  device_to_shifts w !! night_device_id s = Some lsn ->
  sole_member (heap w) lsd l = true ->
  sole_member (heap w) lsn l = true ->
  day_device_id s <> night_device_id s ->
  deviceStopComm dev w =
    (Return tt,
     mkWorld (heap w) (next_loc w) (delete (dev_id dev) (shifts w))
       (pruned (night_device_id s) l lsn
          (pruned (day_device_id s) l lsd (device_to_shifts w)))
       (devices w)
       (trace w ++ [LoggerInfo (ShiftStopped (name dev))])).
Proof.
  intros Hs Hh Hd Hn Hsd Hsn Hne.
  destruct w as [h n sh idx dvs tr]. cbn in Hs, Hh, Hd, Hn, Hsd, Hsn |- *.
  unfold deviceStopComm, shifts_pop, deref, set_shifts, logger_info, emit,
    modify, get, bind, ret.
  cbn -[remove_and_prune]. rewrite Hs. cbn -[remove_and_prune].
  rewrite Hh. cbn -[remove_and_prune].
  rewrite (remove_and_prune_run (day_device_id s) l
             (mkWorld h n (delete (dev_id dev) sh) idx dvs tr) lsd Hd Hsd).
  cbn -[remove_and_prune]. rewrite Hh. cbn -[remove_and_prune].
  rewrite (remove_and_prune_run (night_device_id s) l
             (mkWorld h n (delete (dev_id dev) sh)
                (pruned (day_device_id s) l lsd idx) dvs tr) lsn).
  - reflexivity.
  - cbn. rewrite pruned_lookup_ne by congruence. exact Hn.
  - exact Hsn.
Qed.

(** The same callback on a registered shift whose two targets are one
    device: the second removal fails. *)
Lemma deviceStopComm_same_target_run (dev : Device) (w : World) (l : loc)
      (s : Shift) (ls : list loc) :
  shifts w !! dev_id dev = Some l ->
  heap w !! l = Some s ->
  device_to_shifts w !! day_device_id s = Some ls ->
  sole_member (heap w) ls l = true ->
  day_device_id s = night_device_id s ->
  deviceStopComm dev w =
    (Raise KeyError,
     mkWorld (heap w) (next_loc w) (delete (dev_id dev) (shifts w))
       (pruned (day_device_id s) l ls (device_to_shifts w))
       (devices w) (trace w)).
Proof.
  intros Hs Hh Hd Hsd He.
  destruct w as [h n sh idx dvs tr]. cbn in Hs, Hh, Hd, Hsd |- *.
  unfold deviceStopComm, shifts_pop, deref, set_shifts, logger_info, emit,
    modify, get, bind, ret.
  cbn -[remove_and_prune]. rewrite Hs. cbn -[remove_and_prune].
  rewrite Hh. cbn -[remove_and_prune].
  rewrite (remove_and_prune_run (day_device_id s) l
             (mkWorld h n (delete (dev_id dev) sh) idx dvs tr) ls Hd Hsd).
  cbn -[remove_and_prune]. rewrite Hh. cbn -[remove_and_prune].
  rewrite remove_and_prune_fails; [reflexivity|].
  cbn. intros ls'. rewrite <- He, pruned_lookup_eq.
  destruct (decide (ls = [l])); [discriminate|].
  intros E. inversion E; subst ls'. apply set_contains_without, Hsd.
Qed.

(** C6.  [deviceStopComm] on a registered shift that is a member of the
    index entries of its two targets leaves the registry without the
    shift and both entries without it; an entry that held only this
    shift is deleted from the index, so no entry is left empty.  The
    other entries and the other registered shifts are untouched.  With
    two different targets the call returns normally. *)
Theorem deviceStopComm_unregisters_shift (dev : Device) (w : World) (l : loc)
        (s : Shift) (lsd lsn : list loc) :
  shifts w !! dev_id dev = Some l ->
  heap w !! l = Some s ->
  device_to_shifts w !! day_device_id s = Some lsd ->
  device_to_shifts w !! night_device_id s = Some lsn ->
  sole_member (heap w) lsd l = true ->
  sole_member (heap w) lsn l = true ->
  exists r w',
    deviceStopComm dev w = (r, w')
    /\ shifts w' !! dev_id dev = None
    /\ (forall k ls, k = day_device_id s \/ k = night_device_id s ->
          device_to_shifts w' !! k = Some ls ->
          (l ∉ ls) /\ set_contains (heap w') ls l = false /\ ls <> [])
    /\ (lsd = [l] -> device_to_shifts w' !! day_device_id s = None)
    /\ (lsn = [l] -> device_to_shifts w' !! night_device_id s = None)
    /\ (forall k, k <> day_device_id s -> k <> night_device_id s ->
          device_to_shifts w' !! k = device_to_shifts w !! k)
    /\ (forall k, k <> dev_id dev -> shifts w' !! k = shifts w !! k)
    /\ (day_device_id s <> night_device_id s -> r = Return tt).
Proof.
  intros Hs Hh Hd Hn Hsd Hsn.
  assert (Hentry : forall ls0, sole_member (heap w) ls0 l = true ->
            forall ls, (if decide (ls0 = [l]) then None
                        else Some (without l ls0)) = Some ls ->
            (l ∉ ls) /\ set_contains (heap w) ls l = false /\ ls <> []).
  { intros ls0 Hsole ls E. destruct (decide (ls0 = [l])) as [|Hne];
      [discriminate|]. inversion E; subst ls.
    split; [apply without_not_elem|].
    split; [apply set_contains_without, Hsole|].
    intros Hnil. apply Hne. exact (without_nil _ _ _ Hsole Hnil). }
  destruct (decide (day_device_id s = night_device_id s)) as [He|Hne].
  - assert (lsn = lsd) by congruence. subst lsn.
    eexists _, _.
    split; [apply (deviceStopComm_same_target_run dev w l s lsd
                     Hs Hh Hd Hsd He)|].
    cbn. split; [apply lookup_delete_eq|].
    split; [|split; [|split; [|split; [|split]]]].
    + intros k ls Hk Hls.
      assert (k = day_device_id s) by (destruct Hk; congruence). subst k.
      rewrite pruned_lookup_eq in Hls. exact (Hentry lsd Hsd ls Hls).
    + intros ->. rewrite pruned_lookup_eq.
      destruct (decide ([l] = [l])); congruence.
    + intros ->. rewrite <- He, pruned_lookup_eq.
      destruct (decide ([l] = [l])); congruence.
    + intros k H1 _. apply pruned_lookup_ne, H1.
    + intros k Hk. apply lookup_delete_ne. congruence.
    + contradiction.
  - eexists _, _.
    split; [apply (deviceStopComm_run dev w l s lsd lsn
                     Hs Hh Hd Hn Hsd Hsn Hne)|].
    cbn. split; [apply lookup_delete_eq|].
    assert (Hday : pruned (night_device_id s) l lsn
                     (pruned (day_device_id s) l lsd (device_to_shifts w))
                   !! day_device_id s
                   = if decide (lsd = [l]) then None
                     else Some (without l lsd)).
    { rewrite pruned_lookup_ne by exact Hne. apply pruned_lookup_eq. }
    assert (Hnight : pruned (night_device_id s) l lsn
                       (pruned (day_device_id s) l lsd (device_to_shifts w))
                     !! night_device_id s
                     = if decide (lsn = [l]) then None
                       else Some (without l lsn)).
    { apply pruned_lookup_eq. }
    split; [|split; [|split; [|split; [|split]]]].
    + intros k ls [->| ->] Hls.
      * rewrite Hday in Hls. exact (Hentry lsd Hsd ls Hls).
      * rewrite Hnight in Hls. exact (Hentry lsn Hsn ls Hls).
    + intros ->. rewrite Hday. destruct (decide ([l] = [l])); congruence.
    + intros ->. rewrite Hnight. destruct (decide ([l] = [l])); congruence.
    + intros k H1 H2. rewrite !pruned_lookup_ne by assumption. reflexivity.
    + intros k Hk. apply lookup_delete_ne. congruence.
    + reflexivity.
Qed.

Lemma deviceStopComm_unregisters_shift_witness :
  exists w',
    deviceStopComm (the_device 2) w_two = (Return tt, w')
    /\ shifts w' !! 2 = None
    /\ shifts w' !! 1 = Some 0%nat
    /\ device_to_shifts w' !! 30 = None
    /\ (forall ls, device_to_shifts w' !! 10 = Some ls -> (1%nat ∉ ls) /\ ls <> []).
Proof.
  destruct (deviceStopComm_unregisters_shift (the_device 2) w_two 1%nat
              (mkShift 2 (VBool false) NIGHT 10 30) [0%nat; 1%nat] [1%nat]
              eq_refl eq_refl eq_refl eq_refl eq_refl eq_refl)
    as (r & w' & Hrun & Hreg & Hent & _ & Hnight & _ & Hoth & Hret).
  rewrite (Hret ltac:(discriminate)) in Hrun.
  exists w'. split; [exact Hrun|]. split; [exact Hreg|].
  split; [rewrite Hoth by discriminate; reflexivity|].
  split; [apply Hnight; reflexivity|].
  intros ls Hls. destruct (Hent 10 ls (or_introl eq_refl) Hls) as (H1 & _ & H2).
  auto.
Defined.

(** C9, as worded, fails.  The single-lamp shift (day and night device
    both lamp 10) was started next to the porch shift, whose day device
    is lamp 10 too.  Stopping it raises [KeyError] and takes it out of
    the registry, but the first removal did not empty the shared entry
    and did not delete it: the entry still holds the porch shift. *)
Lemma stop_same_target_entry_survives :
  let w' := world_after (deviceStopComm (the_device 3)) w_shared in
  cached_mode w_shared 3 = Some DAY
  /\ (day_device_id <$> heap w_shared !! 1%nat) = Some 10
  /\ (night_device_id <$> heap w_shared !! 1%nat) = Some 10
  /\ outcome (deviceStopComm (the_device 3)) w_shared = Raise KeyError
  /\ shifts w' !! 3 = None
  /\ device_to_shifts w' !! 10 = Some [0%nat]
  /\ device_to_shifts w' !! 10 <> None.
Proof. vm_compute. repeat split. discriminate. Qed.

(** C9, amended.  [deviceStopComm] on a registered shift whose day and
    night device are the same raises [KeyError] after it has taken the
    shift out of the registry and out of the shared entry, and before
    its log line.  If the shift was the only member, the first removal
    emptied and deleted the entry and the second removal finds no entry;
    if other shifts are members, the entry stays with them and the second
    removal finds the shift gone from it. *)
Theorem deviceStopComm_same_target_raises (dev : Device) (w : World)
        (l : loc) (s : Shift) (ls : list loc) :
  shifts w !! dev_id dev = Some l ->
  heap w !! l = Some s ->
  day_device_id s = night_device_id s ->
  device_to_shifts w !! day_device_id s = Some ls ->
  sole_member (heap w) ls l = true ->
  exists w',
    deviceStopComm dev w = (Raise KeyError, w')
    /\ shifts w' !! dev_id dev = None
    /\ device_to_shifts w' !! day_device_id s
       = (if decide (ls = [l]) then None else Some (without l ls))
    /\ (forall k, k <> day_device_id s ->
          device_to_shifts w' !! k = device_to_shifts w !! k)
    /\ heap w' = heap w
    /\ trace w' = trace w.
Proof.
  intros Hs Hh He Hd Hsole.
  eexists. split; [apply (deviceStopComm_same_target_run dev w l s ls
                            Hs Hh Hd Hsole He)|].
  cbn. split; [apply lookup_delete_eq|].
  split; [apply pruned_lookup_eq|].
  split; [|split; reflexivity].
  intros k Hk. apply pruned_lookup_ne, Hk.
Qed.

Lemma deviceStopComm_same_target_raises_witness :
  (exists w',
     deviceStopComm (the_device 3) w_single = (Raise KeyError, w')
     /\ shifts w' !! 3 = None
     /\ device_to_shifts w' !! 10 = None)
  /\ (exists w',
        deviceStopComm (the_device 3) w_shared = (Raise KeyError, w')
        /\ shifts w' !! 3 = None
        /\ device_to_shifts w' !! 10 = Some [0%nat]).
Proof.
  split.
  - destruct (deviceStopComm_same_target_raises (the_device 3) w_single 0%nat
                (mkShift 3 (VBool false) DAY 10 10) [0%nat]
                eq_refl eq_refl eq_refl eq_refl eq_refl)
      as (w' & Hrun & Hreg & Hidx & _).
    exists w'. auto.
  - destruct (deviceStopComm_same_target_raises (the_device 3) w_shared 1%nat
                (mkShift 3 (VBool false) DAY 10 10) [0%nat; 1%nat]
                eq_refl eq_refl eq_refl eq_refl eq_refl)
      as (w' & Hrun & Hreg & Hidx & _).
    exists w'. auto.
Defined.

(* ===================================================================== *)
(** ** Statements that leave the bookkeeping alone *)
(* ===================================================================== *)

Lemma same_ids_refl (s : Shift) : same_ids s s.
Proof. repeat split. Qed.

Lemma same_shape_refl (w : World) : same_shape w w.
Proof.
  repeat split. intros l. destruct (heap w !! l); [apply same_ids_refl|exact I].
Qed.

Lemma same_shape_trans (w1 w2 w3 : World) :
  same_shape w1 w2 -> same_shape w2 w3 -> same_shape w1 w3.
Proof.
  intros (Hs1 & Hi1 & Hn1 & Hh1) (Hs2 & Hi2 & Hn2 & Hh2).
  repeat split; try congruence.
  intros l. specialize (Hh1 l). specialize (Hh2 l).
  destruct (heap w1 !! l), (heap w2 !! l), (heap w3 !! l); try tauto.
  destruct Hh1 as (? & ? & ?), Hh2 as (? & ? & ?).
  repeat split; congruence.
Qed.

(** The invariant only reads the shape. *)
Lemma wf_same_shape (w w' : World) : same_shape w w' -> wf w -> wf w'.
Proof.
  intros (Hs & Hi & Hn & Hh) [Hreg Hidx Hheap].
  assert (Hlive : forall l s, heap w !! l = Some s ->
                    exists s', heap w' !! l = Some s' /\ same_ids s s').
  { intros l s Hl. specialize (Hh l). rewrite Hl in Hh.
    destruct (heap w' !! l) as [s'|]; [eauto|contradiction]. }
  split.
  - intros k l Hk. rewrite Hs in Hk.
    destruct (Hreg k l Hk) as (s & Hl & Hid & Hd & Hn').
    destruct (Hlive l s Hl) as (s' & Hl' & Hid' & Hd' & Hn'').
    exists s'. rewrite Hi, Hid', Hd', Hn''. auto.
  - intros k ls Hk. rewrite Hi in Hk.
    destruct (Hidx k ls Hk) as (Hnd & Hne & Hmem).
    split; [exact Hnd|]. split; [exact Hne|].
    intros l Hl. destruct (Hmem l Hl) as (s & Hs' & Hr & Ht).
    destruct (Hlive l s Hs') as (s' & Hl' & Hid' & Hd' & Hn'').
    exists s'. rewrite Hs, Hid', Hd', Hn''. auto.
  - intros l s' Hl'. rewrite Hn. specialize (Hh l). rewrite Hl' in Hh.
    destruct (heap w !! l) as [s|] eqn:E; [|contradiction].
    exact (Hheap l s E).
Qed.

Lemma keeps_ret {A} (a : A) : keeps_shape (ret a).
Proof. intros w. apply same_shape_refl. Qed.

Lemma keeps_raise {A} (e : exn) : keeps_shape (@raise A e).
Proof. intros w. apply same_shape_refl. Qed.

Lemma keeps_bind {A B} (c : M A) (k : A -> M B) :
  keeps_shape c -> (forall a, keeps_shape (k a)) -> keeps_shape (bind c k).
Proof.
  intros Hc Hk w. unfold bind. specialize (Hc w).
  destruct (c w) as [[a|e] w1]; cbn in *; [|exact Hc].
  exact (same_shape_trans _ _ _ Hc (Hk a w1)).
Qed.

Lemma keeps_get : keeps_shape get.
Proof. intros w. apply same_shape_refl. Qed.

Lemma keeps_emit (e : event) : keeps_shape (emit e).
Proof. intros w. apply (same_shape_refl w). Qed.

Lemma keeps_set_devices (dvs : gmap Z Device) : keeps_shape (set_devices dvs).
Proof. intros w. apply (same_shape_refl w). Qed.

Lemma keeps_lift_exn {A} (r : A + exn) : keeps_shape (lift_exn r).
Proof. destruct r; [apply keeps_ret|apply keeps_raise]. Qed.

Lemma keeps_getitem {V} (d : gmap string V) (key : string) :
  keeps_shape (getitem d key).
Proof.
  unfold getitem. destruct (d !! key); [apply keeps_ret|apply keeps_raise].
Qed.

Lemma keeps_attr (o : option loc) : keeps_shape (attr o).
Proof. destruct o; [apply keeps_ret|apply keeps_raise]. Qed.

Lemma keeps_deref (l : loc) : keeps_shape (deref l).
Proof.
  unfold deref. apply keeps_bind; [apply keeps_get|]. intros w.
  destruct (heap w !! l); [apply keeps_ret|apply keeps_raise].
Qed.

(** Assigning to [onOffState] or to [mode] keeps the shape. *)
Lemma keeps_assign (l : loc) (f : Shift -> Shift) :
  (forall s, same_ids s (f s)) -> keeps_shape (assign l f).
Proof.
  intros Hf w. unfold assign, deref, set_heap, modify, bind, get, ret, raise.
  cbn. destruct (heap w !! l) as [s|] eqn:E; cbn; [|apply same_shape_refl].
  repeat split. intros l'. cbn.
  destruct (decide (l' = l)) as [->|Hne].
  - rewrite E, lookup_insert_eq. apply Hf.
  - rewrite lookup_insert_ne by congruence.
    destruct (heap w !! l'); [apply same_ids_refl|exact I].
Qed.

Lemma keeps_indigo_devices (k : Z) : keeps_shape (indigo_devices k).
Proof.
  unfold indigo_devices. apply keeps_bind; [apply keeps_get|]. intros w.
  destruct (devices w !! k); [apply keeps_ret|apply keeps_raise].
Qed.

Lemma keeps_updateStateOnServer (dev : Device) (key : string) (v : value) :
  keeps_shape (updateStateOnServer dev key v).
Proof.
  unfold updateStateOnServer.
  apply keeps_bind; [apply keeps_emit|]. intros _.
  apply keeps_bind; [apply keeps_get|]. intros w.
  apply keeps_bind; [apply keeps_set_devices|]. intros _. apply keeps_ret.
Qed.

Lemma keeps_refreshFromServer (dev : Device) :
  keeps_shape (refreshFromServer dev).
Proof.
  unfold refreshFromServer.
  apply keeps_bind; [apply keeps_emit|]. intros _.
  apply keeps_bind; [apply keeps_get|]. intros w.
  destruct (devices w !! dev_id dev); apply keeps_ret.
Qed.

Lemma keeps_for_each {A} (xs : list A) (body : A -> M unit) :
  (forall x, keeps_shape (body x)) -> keeps_shape (for_each xs body).
Proof.
  intros Hb. induction xs as [|x xs IH]; cbn; [apply keeps_ret|].
  apply keeps_bind; [apply Hb|]. intros _. exact IH.
Qed.

Create HintDb keeps discriminated.
#[local] Hint Resolve keeps_ret keeps_raise keeps_get keeps_emit keeps_set_devices
  keeps_lift_exn keeps_getitem keeps_attr keeps_deref keeps_indigo_devices
  keeps_updateStateOnServer keeps_refreshFromServer : keeps.

(** Walk through a statement: sequencing, branching, then the leaves. *)
Ltac keeps :=
  repeat first
    [ solve [auto with keeps]
    | apply keeps_assign; intros ?; repeat split
    | match goal with
      | |- keeps_shape (if ?b then _ else _) => destruct b
      | |- keeps_shape (match ?x with _ => _ end) => destruct x
      | |- keeps_shape (bind _ _) => apply keeps_bind; [|intros ?]
      end ].

Lemma keeps_turn_on_shift (action : Action) : keeps_shape (turn_on_shift action).
Proof.
  unfold turn_on_shift, indigo_device_turnOn. keeps.
Qed.

Lemma keeps_turn_off_shift (action : Action) :
  keeps_shape (turn_off_shift action).
Proof.
  unfold turn_off_shift, indigo_device_turnOff. keeps.
Qed.

Lemma keeps_actionControlDevice (action : Action) :
  keeps_shape (actionControlDevice action).
Proof.
  unfold actionControlDevice, logger_info.
  apply keeps_bind; [apply keeps_indigo_devices|]. intros shift_device.
  destruct (deviceAction action); try apply keeps_ret.
  - keeps.
  - apply keeps_bind; [apply keeps_emit|]. intros _. apply keeps_turn_off_shift.
  - apply keeps_bind; [apply keeps_emit|]. intros _. apply keeps_turn_on_shift.
Qed.

Lemma keeps_set_shift (action : Action) : keeps_shape (set_shift action).
Proof.
  unfold set_shift, logger_info, indigo_device_turnOn, indigo_device_turnOff.
  keeps.
Qed.

Lemma keeps_deviceUpdated (orig_dev new_dev : Device) :
  keeps_shape (deviceUpdated orig_dev new_dev).
Proof.
  unfold deviceUpdated.
  apply keeps_bind; [apply keeps_get|]. intros w.
  destruct (device_to_shifts w !! dev_id new_dev); [|apply keeps_ret].
  apply keeps_for_each. intros shift. unfold deviceUpdated_body. keeps.
Qed.

(* ===================================================================== *)
(** ** The invariant holds in every reachable world *)
(* ===================================================================== *)

Lemma same_shape_outside (h : gmap loc Shift) (n : loc) (sh : gmap Z loc)
      (idx : gmap Z (list loc)) (dv dv' : gmap Z Device) (tr tr' : list event) :
  same_shape (mkWorld h n sh idx dv tr) (mkWorld h n sh idx dv' tr').
Proof.
  repeat split. intros l. cbn. destruct (h !! l); [apply same_ids_refl|exact I].
Qed.

(** In a well-formed world a registered shift is a sole member of every
    entry that holds it. *)
Lemma wf_sole_member (w : World) (k : Z) (ls : list loc) (l : loc) :
  wf w -> device_to_shifts w !! k = Some ls -> l ∈ ls ->
  sole_member (heap w) ls l = true.
Proof.
  intros Hwf Hk Hl. destruct (wf_idx w Hwf k ls Hk) as (Hnd & _ & Hmem).
  unfold sole_member. apply andb_true_intro. split.
  - apply Nat.eqb_eq. apply NoDup_ListNoDup in Hnd.
    apply (proj1 (NoDup_count_occ' Nat.eq_dec ls) Hnd).
    apply list_elem_of_In, Hl.
  - apply forallb_forall. intros x Hx. apply list_elem_of_In in Hx.
    destruct (same_key (heap w) l x) eqn:E; [|reflexivity]. cbn.
    apply Nat.eqb_eq. destruct (decide (x = l)) as [|Hne]; [assumption|].
    destruct (same_key_device_id _ _ _ E Hne) as (s & sx & Hs & Hsx & Hid).
    destruct (Hmem l Hl) as (s' & Hs' & Hr & _).
    destruct (Hmem x Hx) as (sx' & Hsx' & Hrx & _).
    assert (s' = s) by congruence. assert (sx' = sx) by congruence.
    subst s' sx'. rewrite Hid in Hrx. congruence.
Qed.

Lemma wf_registered_entries (w : World) (k : Z) (l : loc) :
  wf w -> shifts w !! k = Some l ->
  exists s lsd lsn,
    heap w !! l = Some s /\ device_id s = k
    /\ device_to_shifts w !! day_device_id s = Some lsd
    /\ device_to_shifts w !! night_device_id s = Some lsn
    /\ sole_member (heap w) lsd l = true
    /\ sole_member (heap w) lsn l = true.
Proof.
  intros Hwf Hk.
  destruct (wf_reg w Hwf k l Hk) as (s & Hs & Hid & (lsd & Hd & Hld)
                                     & (lsn & Hn & Hln)).
  exists s, lsd, lsn. repeat split; try assumption.
  - exact (wf_sole_member w _ lsd l Hwf Hd Hld).
  - exact (wf_sole_member w _ lsn l Hwf Hn Hln).
Qed.

(** *** Starting *)

Section Start.

Variables (w : World) (sh : Shift).
Hypothesis Hwf : wf w.
Hypothesis Hnew : shifts w !! device_id sh = None.

Lemma start_member_old (k : Z) (x : loc) :
  x ∈ default [] (device_to_shifts w !! k) ->
  x <> next_loc w
  /\ exists sx, heap w !! x = Some sx
                /\ <[next_loc w := sh]> (heap w) !! x = Some sx
                /\ shifts w !! device_id sx = Some x
                /\ device_id sx <> device_id sh
                /\ (day_device_id sx = k \/ night_device_id sx = k).
Proof.
  intros Hx. apply elem_of_default_lookup in Hx as (ls & Hk & Hx).
  destruct (wf_idx w Hwf k ls Hk) as (_ & _ & Hmem).
  destruct (Hmem x Hx) as (sx & Hsx & Hr & Ht).
  pose proof (wf_heap w Hwf x sx Hsx) as Hlt.
  assert (Hne : x <> next_loc w) by lia.
  split; [exact Hne|]. exists sx. repeat split; try assumption.
  - rewrite lookup_insert_ne by congruence. exact Hsx.
  - intros E. rewrite E in Hr. congruence.
Qed.

(** The new object is added at the end of an entry as it was. *)
Lemma start_set_add (k : Z) :
  set_add (<[next_loc w := sh]> (heap w))
    (default [] (device_to_shifts w !! k)) (next_loc w)
  = default [] (device_to_shifts w !! k) ++ [next_loc w].
Proof.
  set (l := next_loc w). set (h' := <[l := sh]> (heap w)).
  unfold set_add.
  destruct (set_contains h' (default [] (device_to_shifts w !! k)) l) eqn:E;
    [|reflexivity].
  exfalso. unfold set_contains in E. apply existsb_exists in E as (x & Hx & Hk).
  apply list_elem_of_In in Hx.
  destruct (start_member_old k x Hx) as (Hne & sx & _ & Hsx & _ & Hid & _).
  destruct (same_key_device_id h' l x Hk Hne) as (s & sx' & Hs & Hsx' & Hid').
  subst h' l. rewrite lookup_insert_eq in Hs.
  assert (s = sh) by congruence. assert (sx' = sx) by congruence.
  subst s sx'. contradiction.
Qed.

Lemma start_set_add_again (ls : list loc) :
  set_add (<[next_loc w := sh]> (heap w)) (ls ++ [next_loc w]) (next_loc w)
  = ls ++ [next_loc w].
Proof.
  unfold set_add, set_contains. rewrite existsb_app. cbn.
  rewrite same_key_refl, orb_true_r. reflexivity.
Qed.

(** The index after the two additions. *)
Lemma start_index_lookup (day night k : Z) :
  let l := next_loc w in
  let h' := <[l := sh]> (heap w) in
  let idx1 := <[day := set_add h' (default [] (device_to_shifts w !! day)) l]>
                (device_to_shifts w) in
  let idx2 := <[night := set_add h' (default [] (idx1 !! night)) l]> idx1 in
  idx2 !! k = if decide (k = day \/ k = night)
              then Some (default [] (device_to_shifts w !! k) ++ [l])
              else device_to_shifts w !! k.
Proof.
  intros l h' idx1 idx2.
  assert (HB : set_add h' (default [] (idx1 !! night)) l
               = default [] (device_to_shifts w !! night) ++ [l]).
  { subst idx1. destruct (decide (day = night)) as [->|Hdn].
    - rewrite lookup_insert_eq. cbn. rewrite start_set_add.
      apply start_set_add_again.
    - rewrite lookup_insert_ne by exact Hdn. apply start_set_add. }
  subst idx2. rewrite HB.
  destruct (decide (k = night)) as [->|Hkn].
  - rewrite lookup_insert_eq. destruct (decide _) as [_|Hn]; [reflexivity|].
    exfalso. apply Hn. auto.
  - rewrite lookup_insert_ne by congruence. subst idx1.
    destruct (decide (k = day)) as [->|Hkd].
    + rewrite lookup_insert_eq, start_set_add.
      destruct (decide _) as [_|Hn]; [reflexivity|]. exfalso. apply Hn. auto.
    + rewrite lookup_insert_ne by congruence.
      destruct (decide _) as [[?|?]|_]; [contradiction..|reflexivity].
Qed.

(** The world [deviceStartComm] builds is well-formed. *)
Lemma wf_start (dvs : gmap Z Device) (tr : list event) :
  let l := next_loc w in
  let h' := <[l := sh]> (heap w) in
  let day := day_device_id sh in
  let night := night_device_id sh in
  let idx1 := <[day := set_add h' (default [] (device_to_shifts w !! day)) l]>
                (device_to_shifts w) in
  let idx2 := <[night := set_add h' (default [] (idx1 !! night)) l]> idx1 in
  wf (mkWorld h' (S l) (<[device_id sh := l]> (shifts w)) idx2 dvs tr).
Proof.
  intros l h' day night idx1 idx2.
  pose proof (start_index_lookup day night) as Hlk. cbv zeta in Hlk.
  fold l in Hlk. fold h' in Hlk. fold idx1 in Hlk. fold idx2 in Hlk.
  assert (Hgrow : forall k ls x, device_to_shifts w !! k = Some ls -> x ∈ ls ->
                    exists ls', idx2 !! k = Some ls' /\ x ∈ ls').
  { intros k ls x Hk Hx. rewrite Hlk, Hk. cbn.
    destruct (decide _); eexists; (split; [reflexivity|]); [|exact Hx].
    apply elem_of_app. left. exact Hx. }
  split; cbn.
  - intros k x Hk. destruct (decide (k = device_id sh)) as [->|Hne].
    + rewrite lookup_insert_eq in Hk. inversion Hk; subst x.
      exists sh. split; [apply lookup_insert_eq|]. split; [reflexivity|].
      split; eexists; (split; [rewrite Hlk; destruct (decide _) as [_|Hn];
                                 [reflexivity|exfalso; apply Hn; auto]|]);
        apply elem_of_app; right; apply list_elem_of_here.
    + rewrite lookup_insert_ne in Hk by congruence.
      destruct (wf_reg w Hwf k x Hk) as (sx & Hsx & Hid & (lsd & Hd & Hxd)
                                         & (lsn & Hn & Hxn)).
      pose proof (wf_heap w Hwf x sx Hsx) as Hlt.
      exists sx.
      split; [unfold h'; rewrite lookup_insert_ne by (subst l; lia); exact Hsx|].
      split; [exact Hid|].
      split; [exact (Hgrow _ lsd x Hd Hxd)|exact (Hgrow _ lsn x Hn Hxn)].
  - intros k ls Hk. rewrite Hlk in Hk.
    assert (Hold : forall x, x ∈ default [] (device_to_shifts w !! k) ->
              exists s, h' !! x = Some s
                /\ <[device_id sh := l]> (shifts w) !! device_id s = Some x
                /\ (day_device_id s = k \/ night_device_id s = k)).
    { intros x Hx.
      destruct (start_member_old k x Hx) as (_ & sx & _ & Hsx & Hr & Hid & Ht).
      exists sx. split; [exact Hsx|]. split; [|exact Ht].
      rewrite lookup_insert_ne by congruence. exact Hr. }
    destruct (decide (k = day \/ k = night)) as [Hkk|Hkk].
    + inversion Hk; subst ls. split; [|split].
      * apply NoDup_app. split; [|split].
        -- destruct (device_to_shifts w !! k) as [ls0|] eqn:E; cbn;
             [|apply NoDup_nil_2].
           apply (wf_idx w Hwf k ls0 E).
        -- intros x Hx Hx'. apply list_elem_of_singleton in Hx'.
           destruct (start_member_old k x Hx) as (Hne & _). contradiction.
        -- apply NoDup_singleton.
      * intros E. apply app_eq_nil in E as [_ E]. discriminate.
      * intros x Hx. apply elem_of_app in Hx as [Hx|Hx]; [exact (Hold x Hx)|].
        apply list_elem_of_singleton in Hx. subst x.
        exists sh. split; [apply lookup_insert_eq|].
        split; [apply lookup_insert_eq|]. destruct Hkk; subst k; auto.
    + destruct (wf_idx w Hwf k ls Hk) as (Hnd & Hne & _).
      split; [exact Hnd|]. split; [exact Hne|].
      intros x Hx. apply Hold. rewrite Hk. exact Hx.
  - intros x s Hx. destruct (decide (x = l)) as [->|Hne]; [lia|].
    unfold h' in Hx. rewrite lookup_insert_ne in Hx by congruence.
    pose proof (wf_heap w Hwf x s Hx). subst l. lia.
Qed.

End Start.

(** *** Stopping *)

Lemma pruned_entry (h : gmap loc Shift) (ls : list loc) (l : loc) :
  sole_member h ls l = true ->
  (if decide (ls = [l]) then None else Some (without l ls))
  = (if decide (without l ls = []) then None else Some (without l ls)).
Proof.
  intros Hsole. destruct (decide (ls = [l])) as [->|Hne].
  - rewrite without_singleton. reflexivity.
  - destruct (decide (without l ls = [])) as [E|_]; [|reflexivity].
    exfalso. apply Hne. exact (without_nil h ls l Hsole E).
Qed.

Lemma NoDup_without (l : loc) (ls : list loc) : NoDup ls -> NoDup (without l ls).
Proof.
  intros Hnd. apply NoDup_ListNoDup. apply List.NoDup_filter.
  apply NoDup_ListNoDup, Hnd.
Qed.

Section Stop.

Variables (w : World) (k : Z) (l : loc) (s : Shift).
Hypothesis Hwf : wf w.
Hypothesis Hreg : shifts w !! k = Some l.
Hypothesis Hs : heap w !! l = Some s.

(** An entry that is not one of the shift's targets does not hold it. *)
Lemma stop_other_entry (k' : Z) (ls : list loc) :
  device_to_shifts w !! k' = Some ls ->
  k' <> day_device_id s -> k' <> night_device_id s ->
  after_stop l (device_to_shifts w) k' = Some ls.
Proof.
  intros Hk Hd Hn. unfold after_stop. rewrite Hk. cbn.
  destruct (wf_idx w Hwf k' ls Hk) as (_ & Hne & Hmem).
  assert (Hl : l ∉ ls).
  { intros Hl. destruct (Hmem l Hl) as (s' & Hs' & _ & Ht).
    assert (s' = s) by congruence. subst s'. destruct Ht; congruence. }
  rewrite (without_id l ls Hl).
  destruct (decide (ls = [])); [contradiction|reflexivity].
Qed.

(** The world [deviceStopComm] leaves is well-formed, whether or not it
    got past the second removal. *)
Lemma wf_stop (idx' : gmap Z (list loc)) (dvs : gmap Z Device)
      (tr : list event) :
  (forall k', idx' !! k' = after_stop l (device_to_shifts w) k') ->
  wf (mkWorld (heap w) (next_loc w) (delete k (shifts w)) idx' dvs tr).
Proof.
  intros Hlk.
  assert (Hid : device_id s = k).
  { destruct (wf_reg w Hwf k l Hreg) as (s' & Hs' & Hid & _). congruence. }
  assert (Hkeep : forall k' ls x, device_to_shifts w !! k' = Some ls ->
                    x ∈ ls -> x <> l ->
                    exists ls', idx' !! k' = Some ls' /\ x ∈ ls').
  { intros k' ls x Hk Hx Hne. rewrite Hlk. unfold after_stop. rewrite Hk. cbn.
    assert (Hx' : x ∈ without l ls) by (apply without_elem; auto).
    destruct (decide (without l ls = [])) as [E|_].
    - rewrite E in Hx'. inversion Hx'.
    - eauto. }
  split; cbn.
  - intros k' x Hk'. apply lookup_delete_Some in Hk' as [Hne Hk'].
    destruct (wf_reg w Hwf k' x Hk') as (sx & Hsx & Hidx & (lsd & Hd & Hxd)
                                         & (lsn & Hn & Hxn)).
    assert (Hxl : x <> l).
    { intros ->. assert (sx = s) by congruence. subst sx. congruence. }
    exists sx. split; [exact Hsx|]. split; [exact Hidx|].
    split; [exact (Hkeep _ lsd x Hd Hxd Hxl)|exact (Hkeep _ lsn x Hn Hxn Hxl)].
  - intros k' ls' Hk'. rewrite Hlk in Hk'. unfold after_stop in Hk'.
    destruct (device_to_shifts w !! k') as [ls|] eqn:E; [|discriminate].
    cbn in Hk'. destruct (decide (without l ls = [])) as [|Hne];
      [discriminate|]. inversion Hk'; subst ls'.
    destruct (wf_idx w Hwf k' ls E) as (Hnd & _ & Hmem).
    split; [apply NoDup_without, Hnd|]. split; [exact Hne|].
    intros x Hx. apply without_elem in Hx as [Hx Hxl].
    destruct (Hmem x Hx) as (sx & Hsx & Hr & Ht).
    exists sx. split; [exact Hsx|]. split; [|exact Ht].
    apply lookup_delete_Some. split; [|exact Hr].
    intros E'. rewrite <- E' in Hr. congruence.
  - exact (wf_heap w Hwf).
Qed.

End Stop.

Lemma deviceStopComm_wf (dev : Device) (w : World) :
  wf w -> wf (world_after (deviceStopComm dev) w).
Proof.
  intros Hwf. unfold world_after.
  destruct (shifts w !! dev_id dev) as [l|] eqn:Hreg.
  - destruct (wf_registered_entries w _ l Hwf Hreg)
      as (s & lsd & lsn & Hs & Hid & Hd & Hn & Hsd & Hsn).
    destruct (decide (day_device_id s = night_device_id s)) as [He|Hne].
    + rewrite (deviceStopComm_same_target_run dev w l s lsd Hreg Hs Hd Hsd He).
      cbn. apply (wf_stop w (dev_id dev) l s Hwf Hreg Hs). intros k'.
      destruct (decide (k' = day_device_id s)) as [->|Hk].
      * rewrite pruned_lookup_eq. unfold after_stop. rewrite Hd. cbn.
        apply (pruned_entry _ _ _ Hsd).
      * rewrite pruned_lookup_ne by exact Hk.
        destruct (device_to_shifts w !! k') as [ls|] eqn:E.
        -- symmetry. apply (stop_other_entry w l s Hwf Hs); congruence.
        -- unfold after_stop. rewrite E. reflexivity.
    + rewrite (deviceStopComm_run dev w l s lsd lsn Hreg Hs Hd Hn Hsd Hsn Hne).
      cbn. apply (wf_stop w (dev_id dev) l s Hwf Hreg Hs). intros k'.
      destruct (decide (k' = night_device_id s)) as [->|Hkn].
      * rewrite pruned_lookup_eq. unfold after_stop. rewrite Hn. cbn.
        apply (pruned_entry _ _ _ Hsn).
      * rewrite pruned_lookup_ne by exact Hkn.
        destruct (decide (k' = day_device_id s)) as [->|Hkd].
        -- rewrite pruned_lookup_eq. unfold after_stop. rewrite Hd. cbn.
           apply (pruned_entry _ _ _ Hsd).
        -- rewrite pruned_lookup_ne by exact Hkd.
           destruct (device_to_shifts w !! k') as [ls|] eqn:E.
           ++ symmetry. apply (stop_other_entry w l s Hwf Hs); congruence.
           ++ unfold after_stop. rewrite E. reflexivity.
  - assert (Hrun : deviceStopComm dev w = (Raise KeyError, w)).
    { destruct w as [h n sh idx dvs tr]. cbn in Hreg. py_run. reflexivity. }
    rewrite Hrun. exact Hwf.
Qed.

(** *** Starting, however it ends *)

Lemma deviceStartComm_outcomes (dev : Device) (w : World) :
  same_shape w (world_after (deviceStartComm dev) w)
  \/ exists dp np dm day night,
       pluginProps dev !! "day_device_id" = Some dp
       /\ py_int dp = inl day
       /\ pluginProps dev !! "night_device_id" = Some np
       /\ py_int np = inl night
       /\ (states_get dev "mode" <> DAY -> states_get dev "mode" <> NIGHT ->
           pluginProps dev !! "default_mode" = Some dm).
Proof.
  destruct (pluginProps dev !! "day_device_id") as [dp|] eqn:Hdp.
  2: { left. destruct w as [h n sh idx dvs tr]. unfold world_after.
       py_unfold. cbn.
       destruct (is_none (states_get dev "mode") || _); cbn;
         [destruct (pluginProps dev !! "default_mode"); cbn|];
         rewrite ?Hdp; cbn; apply same_shape_outside. }
  destruct (py_int dp) as [day|e] eqn:Hday.
  2: { left. destruct w as [h n sh idx dvs tr]. unfold world_after.
       py_unfold. cbn.
       destruct (is_none (states_get dev "mode") || _); cbn;
         [destruct (pluginProps dev !! "default_mode"); cbn|];
         rewrite ?Hdp; cbn; rewrite ?Hday; cbn; apply same_shape_outside. }
  destruct (pluginProps dev !! "night_device_id") as [np|] eqn:Hnp.
  2: { left. destruct w as [h n sh idx dvs tr]. unfold world_after.
       py_unfold. cbn.
       destruct (is_none (states_get dev "mode") || _); cbn;
         [destruct (pluginProps dev !! "default_mode"); cbn|];
         rewrite ?Hdp; cbn; rewrite ?Hday; cbn; rewrite ?Hnp; cbn;
         apply same_shape_outside. }
  destruct (py_int np) as [night|e] eqn:Hnight.
  2: { left. destruct w as [h n sh idx dvs tr]. unfold world_after.
       py_unfold. cbn.
       destruct (is_none (states_get dev "mode") || _); cbn;
         [destruct (pluginProps dev !! "default_mode"); cbn|];
         rewrite ?Hdp; cbn; rewrite ?Hday; cbn; rewrite ?Hnp; cbn;
         rewrite ?Hnight; cbn; apply same_shape_outside. }
  destruct (bool_decide_reflect (states_get dev "mode" = DAY
                                 \/ states_get dev "mode" = NIGHT)) as [Hv|Hv].
  { right. exists dp, np, VNone, day, night. repeat split; try assumption.
    intros H1 H2. tauto. }
  destruct (pluginProps dev !! "default_mode") as [dm|] eqn:Hdm.
  { right. exists dp, np, dm, day, night. repeat split; assumption. }
  left. destruct w as [h n sh idx dvs tr]. unfold world_after.
  unfold deviceStartComm. unfold bind at 1. rewrite mode_check.
  rewrite bool_decide_eq_false_2 by exact Hv. cbn.
  py_unfold. cbn. rewrite Hdm. cbn. apply same_shape_outside.
Qed.

Lemma deviceStartComm_wf (dev : Device) (w : World) :
  wf w -> shifts w !! dev_id dev = None ->
  wf (world_after (deviceStartComm dev) w).
Proof.
  intros Hwf Hnew.
  destruct (deviceStartComm_outcomes dev w)
    as [Hshape|(dp & np & dm & day & night & Hdp & Hday & Hnp & Hnight & Hdm)].
  - exact (wf_same_shape _ _ Hshape Hwf).
  - unfold world_after.
    rewrite (deviceStartComm_run dev w dp np dm day night
               Hdp Hday Hnp Hnight Hdm). cbn.
    exact (wf_start w (mkShift (dev_id dev) (VBool false) _ day night)
             Hwf Hnew _ _).
Qed.

(** *** Every step *)

Lemma startup_wf (w : World) : wf w -> wf (world_after startup w).
Proof.
  intros Hwf. split; cbn.
  - intros k l Hk. rewrite lookup_empty in Hk. discriminate.
  - intros k ls Hk. rewrite lookup_empty in Hk. discriminate.
  - exact (wf_heap w Hwf).
Qed.

Lemma loaded_wf (dvs : gmap Z Device) : wf (loaded dvs).
Proof.
  split; cbn; intros ? ? H; rewrite lookup_empty in H; discriminate.
Qed.

(** Each callback, and each change on the server, keeps the invariant. *)
Theorem step_wf (w w' : World) : wf w -> step w w' -> wf w'.
Proof.
  intros Hwf Hstep. destruct Hstep.
  - apply startup_wf, Hwf.
  - apply deviceStartComm_wf; assumption.
  - apply deviceStopComm_wf, Hwf.
  - exact (wf_same_shape _ _ (keeps_deviceUpdated _ _ w) Hwf).
  - exact (wf_same_shape _ _ (keeps_actionControlDevice _ w) Hwf).
  - exact (wf_same_shape _ _ (keeps_set_shift _ w) Hwf).
  - destruct Hwf as [Hr Hi Hh]. split; assumption.
Qed.

(** So it holds in every world the plugin can be in. *)
Theorem reachable_wf (dvs : gmap Z Device) (w : World) :
  rtc step (loaded dvs) w -> wf w.
Proof.
  revert w. apply (rtc_ind_r (R := step) wf (loaded dvs)).
  - apply loaded_wf.
  - intros w1 w2 _ Hstep Hwf1. exact (step_wf w1 w2 Hwf1 Hstep).
Qed.

(** In every such world, stopping a registered shift finds it as a sole
    member of the entries of both its targets. *)
Corollary reachable_registered (dvs : gmap Z Device) (w : World) (k : Z)
          (l : loc) :
  rtc step (loaded dvs) w -> shifts w !! k = Some l ->
  exists s lsd lsn,
    heap w !! l = Some s /\ device_id s = k
    /\ device_to_shifts w !! day_device_id s = Some lsd
    /\ device_to_shifts w !! night_device_id s = Some lsn
    /\ sole_member (heap w) lsd l = true
    /\ sole_member (heap w) lsn l = true.
Proof.
  intros Hr Hk. exact (wf_registered_entries w k l (reachable_wf dvs w Hr) Hk).
Qed.

(* ===================================================================== *)
(** ** What the device actions leave alone *)
(* ===================================================================== *)

Lemma same_plugin_state_refl (w : World) : same_plugin_state w w.
Proof. repeat split. Qed.

Lemma same_plugin_state_trans (w1 w2 w3 : World) :
  same_plugin_state w1 w2 -> same_plugin_state w2 w3 ->
  same_plugin_state w1 w3.
Proof.
  intros (? & ? & ? & ?) (? & ? & ? & ?). repeat split; congruence.
Qed.

Lemma kps_ret {A} (a : A) : keeps_plugin_state (ret a).
Proof. intros w. apply same_plugin_state_refl. Qed.

Lemma kps_raise {A} (e : exn) : keeps_plugin_state (@raise A e).
Proof. intros w. apply same_plugin_state_refl. Qed.

Lemma kps_bind {A B} (c : M A) (k : A -> M B) :
  keeps_plugin_state c -> (forall a, keeps_plugin_state (k a)) ->
  keeps_plugin_state (bind c k).
Proof.
  intros Hc Hk w. unfold bind. specialize (Hc w).
  destruct (c w) as [[a|e] w1]; cbn in *; [|exact Hc].
  exact (same_plugin_state_trans _ _ _ Hc (Hk a w1)).
Qed.

Lemma kps_get : keeps_plugin_state get.
Proof. intros w. apply same_plugin_state_refl. Qed.

Lemma kps_emit (e : event) : keeps_plugin_state (emit e).
Proof. intros w. repeat split. Qed.

Lemma kps_set_devices (dvs : gmap Z Device) :
  keeps_plugin_state (set_devices dvs).
Proof. intros w. repeat split. Qed.

Lemma kps_attr (o : option loc) : keeps_plugin_state (attr o).
Proof. destruct o; [apply kps_ret|apply kps_raise]. Qed.

Lemma kps_deref (l : loc) : keeps_plugin_state (deref l).
Proof.
  unfold deref. apply kps_bind; [apply kps_get|]. intros w.
  destruct (heap w !! l); [apply kps_ret|apply kps_raise].
Qed.

Lemma kps_indigo_devices (k : Z) : keeps_plugin_state (indigo_devices k).
Proof.
  unfold indigo_devices. apply kps_bind; [apply kps_get|]. intros w.
  destruct (devices w !! k); [apply kps_ret|apply kps_raise].
Qed.

Lemma kps_updateStateOnServer (dev : Device) (key : string) (v : value) :
  keeps_plugin_state (updateStateOnServer dev key v).
Proof.
  unfold updateStateOnServer.
  apply kps_bind; [apply kps_emit|]. intros _.
  apply kps_bind; [apply kps_get|]. intros w.
  apply kps_bind; [apply kps_set_devices|]. intros _. apply kps_ret.
Qed.

Lemma kps_refreshFromServer (dev : Device) :
  keeps_plugin_state (refreshFromServer dev).
Proof.
  unfold refreshFromServer.
  apply kps_bind; [apply kps_emit|]. intros _.
  apply kps_bind; [apply kps_get|]. intros w.
  destruct (devices w !! dev_id dev); apply kps_ret.
Qed.

Create HintDb kps discriminated.
#[local] Hint Resolve kps_ret kps_raise kps_get kps_emit kps_set_devices
  kps_attr kps_deref kps_indigo_devices kps_updateStateOnServer
  kps_refreshFromServer : kps.

Ltac kps :=
  repeat first
    [ solve [auto with kps]
    | match goal with
      | |- keeps_plugin_state (if ?b then _ else _) => destruct b
      | |- keeps_plugin_state (match ?x with _ => _ end) => destruct x
      | |- keeps_plugin_state (bind _ _) => apply kps_bind; [|intros ?]
      end ].

Lemma kps_turn_on_shift (action : Action) :
  keeps_plugin_state (turn_on_shift action).
Proof. unfold turn_on_shift, indigo_device_turnOn. kps. Qed.

Lemma kps_turn_off_shift (action : Action) :
  keeps_plugin_state (turn_off_shift action).
Proof. unfold turn_off_shift, indigo_device_turnOff. kps. Qed.

(** X1.  No device action writes the plugin's own state: whatever the
    action and however the call ends, the [Shift] objects, the registry
    and the index after [actionControlDevice] are those before it.  In
    particular a turn-on or turn-off never changes a cached [onOffState]
    or [mode]. *)
Theorem actionControlDevice_keeps_plugin_state (action : Action) (w : World) :
  let w' := world_after (actionControlDevice action) w in
  heap w' = heap w
  /\ next_loc w' = next_loc w
  /\ shifts w' = shifts w
  /\ device_to_shifts w' = device_to_shifts w
  /\ (forall k, cached_onOffState w' k = cached_onOffState w k)
  /\ (forall k, cached_mode w' k = cached_mode w k).
Proof.
  assert (H : keeps_plugin_state (actionControlDevice action)).
  { unfold actionControlDevice, logger_info.
    apply kps_bind; [apply kps_indigo_devices|]. intros shift_device.
    destruct (deviceAction action); try apply kps_ret.
    - kps.
    - apply kps_bind; [apply kps_emit|]. intros _. apply kps_turn_off_shift.
    - apply kps_bind; [apply kps_emit|]. intros _. apply kps_turn_on_shift. }
  destruct (H w) as (Hh & Hn & Hs & Hi). cbv zeta. unfold world_after.
  repeat split; try assumption.
  - intros k. unfold cached_onOffState. rewrite Hs, Hh. reflexivity.
  - intros k. unfold cached_mode. rewrite Hs, Hh. reflexivity.
Qed.

(** X2.  A device action other than turn-on, turn-off and status request
    (a toggle, a brightness change, ...) is dropped: the call looks the
    virtual device up and does nothing else.  It returns normally when
    the server knows the device and raises [KeyError] when it does not;
    either way the world is unchanged, nothing is logged and nothing is
    sent. *)
Theorem actionControlDevice_unhandled (action : Action) (w : World) :
  is_handled (deviceAction action) = false ->
  actionControlDevice action w
  = (match devices w !! deviceId action with
     | Some _ => Return tt
     | None => Raise KeyError
     end, w).
Proof.
  intros Hun. destruct w as [h n sh idx dvs tr].
  unfold actionControlDevice, indigo_devices, bind, get, ret, raise. cbn.
  destruct (dvs !! deviceId action); [|reflexivity].
  destruct (deviceAction action); try discriminate Hun; reflexivity.
Qed.

Lemma actionControlDevice_unhandled_witness :
  actionControlDevice (mkAction 1 Toggle no_props) w_porch_on
  = (Return tt, w_porch_on)
  /\ actionControlDevice (mkAction 7 SetBrightness no_props) w_porch_on
     = (Raise KeyError, w_porch_on).
Proof.
  split.
  - exact (actionControlDevice_unhandled (mkAction 1 Toggle no_props)
             w_porch_on eq_refl).
  - exact (actionControlDevice_unhandled (mkAction 7 SetBrightness no_props)
             w_porch_on eq_refl).
Defined.

(* ===================================================================== *)
(** ** Power actions from end to end, and when they fail *)
(* ===================================================================== *)

(** X3.  [turn_on_shift] and [turn_off_shift] are all or nothing: when
    either raises, the world is exactly as it was (nothing published, no
    command sent).  Every lookup that can fail comes before the first
    effect. *)
Theorem turn_on_off_shift_all_or_nothing (action : Action) (w w' : World)
        (e : exn) :
  turn_on_shift action w = (Raise e, w')
  \/ turn_off_shift action w = (Raise e, w') ->
  w' = w.
Proof.
  destruct w as [h n sh idx dvs tr].
  unfold turn_on_shift, turn_off_shift. py_unfold. cbn.
  destruct (sh !! deviceId action) as [l|]; cbn;
    [|intros [H|H]; inversion H; reflexivity].
  destruct (h !! l) as [s|]; cbn; [|intros [H|H]; inversion H; reflexivity].
  destruct (dvs !! current_shift_device_id s); cbn;
    [|intros [H|H]; inversion H; reflexivity].
  destruct (dvs !! device_id s); cbn; intros [H|H]; inversion H; reflexivity.
Qed.

Lemma turn_on_off_shift_all_or_nothing_witness :
  world_after (turn_on_shift (mkAction 1 TurnOn no_props)) w_orphan = w_orphan.
Proof.
  apply (turn_on_off_shift_all_or_nothing (mkAction 1 TurnOn no_props)
           w_orphan _ KeyError).
  left. reflexivity.
Defined.

(** X4.  A turn-on (turn-off) action on a registered shift whose devices
    the server knows returns normally and does three things in this
    order: it logs the request, publishes [onOffState] true (false) for
    the virtual device, and sends one turn-on (turn-off) to the shift's
    active device.  No other device gets a command. *)
Theorem actionControlDevice_power (action : Action) (w : World) (l : loc)
        (s : Shift) (d dv : Device) (b : bool) :
  deviceAction action = (if b then TurnOn else TurnOff) ->
  shifts w !! deviceId action = Some l ->
  heap w !! l = Some s ->
  device_id s = deviceId action ->
  devices w !! deviceId action = Some dv ->
  devices w !! current_shift_device_id s = Some d ->
  exists w',
    actionControlDevice action w = (Return tt, w')
    /\ trace w' =
         trace w
         ++ [LoggerInfo ((if b then SentOn else SentOff) (name dv));
             UpdateStateOnServer (deviceId action) "onOffState" (VBool b);
             (if b then DeviceTurnOn else DeviceTurnOff)
               (current_shift_device_id s)]
    /\ published w' (deviceId action) "onOffState" = Some (VBool b)
    /\ (forall k, k <> deviceId action -> devices w' !! k = devices w !! k).
Proof.
  intros Hact Hs Hh Hid Hdv Hd.
  destruct w as [h n sh idx dvs tr]. cbn in Hs, Hh, Hdv, Hd |- *.
  unfold published.
  destruct b; (eexists; split; [py_unfold; py_run; reflexivity|]); cbn;
    rewrite <- !app_assoc; (split; [reflexivity|]);
    rewrite lookup_alter_eq, Hdv; cbn;
    (split; [apply lookup_insert_eq|]);
    intros k Hk; apply lookup_alter_ne; congruence.
Qed.

Lemma actionControlDevice_power_witness :
  exists w',
    actionControlDevice (mkAction 1 TurnOff no_props) w_porch_on
    = (Return tt, w')
    /\ trace w' = trace w_porch_on
                  ++ [LoggerInfo (SentOff "Porch shift");
                      UpdateStateOnServer 1 "onOffState" (VBool false);
                      DeviceTurnOff 10]
    /\ published w' 1 "onOffState" = Some (VBool false).
Proof.
  destruct (actionControlDevice_power (mkAction 1 TurnOff no_props) w_porch_on
              0%nat (mkShift 1 (VBool true) DAY 10 20) (the_device 10)
              (set_state "onOffState" (VBool true)
                 (set_state "mode" (VStr "day") (the_device 1)))
              false eq_refl eq_refl eq_refl eq_refl eq_refl eq_refl)
    as (w' & Hrun & Htr & Hpub & _).
  exists w'. auto.
Defined.

(** X5.  [set_shift] is not all or nothing.  On a registered shift whose
    virtual device the server does not know it raises [KeyError], but
    the new mode is already stored in the shift; nothing is published
    and no command is sent. *)
Theorem set_shift_unknown_device (action : Action) (w : World) (m : value)
        (l : loc) (s : Shift) :
  props action !! "mode" = Some m ->
  shifts w !! deviceId action = Some l ->
  heap w !! l = Some s ->
  devices w !! deviceId action = None ->
  set_shift action w =
    (Raise KeyError,
     mkWorld (<[l := set_mode m s]> (heap w)) (next_loc w) (shifts w)
       (device_to_shifts w) (devices w) (trace w)).
Proof.
  intros Hm Hs Hh Hd. destruct w as [h n sh idx dvs tr]. cbn in *.
  py_run. reflexivity.
Qed.

Lemma set_shift_unknown_device_witness :
  let action := mkAction 1 TurnOn {[ "mode" := VStr "night" ]} in
  outcome (set_shift action) w_orphan = Raise KeyError
  /\ cached_mode w_orphan 1 = Some DAY
  /\ cached_mode (world_after (set_shift action) w_orphan) 1 = Some NIGHT
  /\ trace (world_after (set_shift action) w_orphan) = trace w_orphan.
Proof.
  intros action. unfold outcome, world_after.
  rewrite (set_shift_unknown_device action w_orphan (VStr "night") 0%nat
             (mkShift 1 (VBool true) DAY 10 20)
             eq_refl eq_refl eq_refl eq_refl).
  repeat split.
Defined.



(** X7.  The methods [Shift.turn_on] and [Shift.turn_off] on an object
    whose two devices the server knows send one command to the active
    device, then store the new [onOffState] in the object, then publish
    it.  When the server does not know the virtual device or the active
    device they raise [KeyError] and nothing has happened. *)
Theorem Shift_turn_on_off (self : loc) (w : World) (s : Shift) :
  heap w !! self = Some s ->
  (forall d dv,
     devices w !! current_shift_device_id s = Some d ->
     devices w !! device_id s = Some dv ->
     turn_on self w =
       (Return tt,
        mkWorld (<[self := set_onOffState (VBool true) s]> (heap w))
          (next_loc w) (shifts w) (device_to_shifts w)
          (alter (set_state "onOffState" (VBool true)) (device_id s)
             (devices w))
          (trace w ++ [DeviceTurnOn (current_shift_device_id s);
                       UpdateStateOnServer (device_id s) "onOffState"
                         (VBool true)]))
     /\ turn_off self w =
       (Return tt,
        mkWorld (<[self := set_onOffState (VBool false) s]> (heap w))
          (next_loc w) (shifts w) (device_to_shifts w)
          (alter (set_state "onOffState" (VBool false)) (device_id s)
             (devices w))
          (trace w ++ [DeviceTurnOff (current_shift_device_id s);
                       UpdateStateOnServer (device_id s) "onOffState"
                         (VBool false)])))
  /\ (devices w !! current_shift_device_id s = None
      \/ devices w !! device_id s = None ->
      turn_on self w = (Raise KeyError, w)
      /\ turn_off self w = (Raise KeyError, w)).
Proof.
  intros Hh. destruct w as [h n sh idx dvs tr]. cbn in *. split.
  - intros d dv Hd Hdv. split; py_run; rewrite <- app_assoc; reflexivity.
  - intros Hnone. py_unfold. cbn. rewrite Hh. cbn.
    destruct (dvs !! device_id s) as [dv|] eqn:Hdv; cbn; [|split; reflexivity].
    destruct Hnone as [Hd|Hd]; [|discriminate].
    rewrite Hd. cbn. split; reflexivity.
Qed.

Lemma Shift_turn_on_off_witness :
  cached_onOffState (world_after (turn_on 0%nat) w_porch) 1 = Some (VBool true)
  /\ turn_off 0%nat w_orphan = (Raise KeyError, w_orphan).
Proof.
  destruct (Shift_turn_on_off 0%nat w_porch (mkShift 1 (VBool false) DAY 10 20)
              eq_refl) as [Hok _].
  destruct (Hok (the_device 10) (set_state "mode" (VStr "day") (the_device 1))
              eq_refl eq_refl) as [Hon _].
  destruct (Shift_turn_on_off 0%nat w_orphan (mkShift 1 (VBool true) DAY 10 20)
              eq_refl) as [_ Hfail].
  destruct (Hfail (or_intror eq_refl)) as [_ Hoff].
  split; [|exact Hoff].
  unfold world_after. rewrite Hon. reflexivity.
Defined.

(* ===================================================================== *)
(** ** Who sends power commands *)
(* ===================================================================== *)

Lemma snp_ret {A} (a : A) : sends_no_power (ret a).
Proof. intros w. reflexivity. Qed.

Lemma snp_raise {A} (e : exn) : sends_no_power (@raise A e).
Proof. intros w. reflexivity. Qed.

Lemma snp_bind {A B} (c : M A) (k : A -> M B) :
  sends_no_power c -> (forall a, sends_no_power (k a)) ->
  sends_no_power (bind c k).
Proof.
  intros Hc Hk w. unfold bind. specialize (Hc w).
  destruct (c w) as [[a|e] w1]; cbn in *; [|exact Hc].
  rewrite (Hk a w1). exact Hc.
Qed.

Lemma snp_get : sends_no_power get.
Proof. intros w. reflexivity. Qed.

Lemma snp_emit (e : event) :
  is_power_command e = false -> sends_no_power (emit e).
Proof.
  intros He w. cbn. rewrite power_commands_app. cbn. rewrite He.
  apply app_nil_r.
Qed.

Lemma snp_set_heap (h : gmap loc Shift) : sends_no_power (set_heap h).
Proof. intros w. reflexivity. Qed.

Lemma snp_set_shifts (m : gmap Z loc) : sends_no_power (set_shifts m).
Proof. intros w. reflexivity. Qed.

Lemma snp_set_device_to_shifts (m : gmap Z (list loc)) :
  sends_no_power (set_device_to_shifts m).
Proof. intros w. reflexivity. Qed.

Lemma snp_set_devices (m : gmap Z Device) : sends_no_power (set_devices m).
Proof. intros w. reflexivity. Qed.

Lemma snp_for_each {A} (xs : list A) (body : A -> M unit) :
  (forall x, sends_no_power (body x)) -> sends_no_power (for_each xs body).
Proof.
  intros Hb. induction xs as [|x xs IH]; cbn; [apply snp_ret|].
  apply snp_bind; [apply Hb|]. intros _. exact IH.
Qed.

Create HintDb snp discriminated.
#[local] Hint Resolve snp_ret snp_raise snp_get snp_set_heap snp_set_shifts
  snp_set_device_to_shifts snp_set_devices : snp.

(** Walk through a statement down to its [emit]s. *)
Ltac snp :=
  repeat first
    [ solve [auto with snp]
    | apply snp_emit; reflexivity
    | match goal with
      | |- sends_no_power (if ?b then _ else _) => destruct b
      | |- sends_no_power (match ?x with _ => _ end) => destruct x
      | |- sends_no_power (bind _ _) => apply snp_bind; [|intros ?]
      | |- sends_no_power (modify _) => intros ?; reflexivity
      end ].

Ltac snp_unfold :=
  unfold deviceUpdated_body, deviceStopComm, deviceStartComm,
    remove_and_prune, device_to_shifts_getitem, shifts_pop, setdefault_add,
    startup, logger_info, refreshFromServer, updateStateOnServer,
    indigo_devices, new_Shift, attr, assign, deref, getitem, lift_exn.

(** X8.  Only a turn-on action, a turn-off action and [set_shift] ever
    send a power command.  Loading, starting and stopping a shift, a
    change notification of any device, and any other device action (a
    status request included) send none, however they end. *)
Theorem only_power_actions_send_power (w : World) :
  power_commands (trace (world_after startup w)) = power_commands (trace w)
  /\ (forall dev,
        power_commands (trace (world_after (deviceStartComm dev) w))
        = power_commands (trace w)
        /\ power_commands (trace (world_after (deviceStopComm dev) w))
           = power_commands (trace w))
  /\ (forall orig_dev new_dev,
        power_commands (trace (world_after (deviceUpdated orig_dev new_dev) w))
        = power_commands (trace w))
  /\ (forall action,
        deviceAction action <> TurnOn -> deviceAction action <> TurnOff ->
        power_commands (trace (world_after (actionControlDevice action) w))
        = power_commands (trace w)).
Proof.
  split; [|split; [|split]].
  - revert w. change (sends_no_power startup). snp_unfold. snp.
  - intros dev. split; revert w.
    + change (sends_no_power (deviceStartComm dev)). snp_unfold. snp.
    + change (sends_no_power (deviceStopComm dev)). snp_unfold. snp.
  - intros orig_dev new_dev. revert w.
    change (sends_no_power (deviceUpdated orig_dev new_dev)).
    unfold deviceUpdated.
    apply snp_bind; [apply snp_get|]. intros w.
    destruct (device_to_shifts w !! dev_id new_dev); [|apply snp_ret].
    apply snp_for_each. intros shift. snp_unfold. snp.
  - intros action Hon Hoff. revert w.
    change (sends_no_power (actionControlDevice action)).
    unfold actionControlDevice.
    apply snp_bind; [snp_unfold; snp|]. intros shift_device.
    destruct (deviceAction action); try contradiction; try apply snp_ret.
    snp_unfold. snp.
Qed.

Lemma only_power_actions_send_power_witness :
  power_commands
    (trace (world_after (actionControlDevice (mkAction 1 RequestStatus no_props))
              w_porch_on))
  = power_commands (trace w_porch_on).
Proof.
  destruct (only_power_actions_send_power w_porch_on) as (_ & _ & _ & H).
  apply H; discriminate.
Defined.

(* ===================================================================== *)
(** ** Starting fails cleanly *)
(* ===================================================================== *)

Lemma py_int_error (v : value) (e : exn) :
  py_int v = inr e -> e = ValueError \/ e = TypeError.
Proof.
  destruct v as [|b|z|s]; cbn; try discriminate.
  - intros H. inversion H. auto.
  - destruct (parse_int s); [discriminate|]. intros H. inversion H. auto.
Qed.

(** X9.  When [deviceStartComm] raises, no shift has been created: the
    objects, the registry and the index are as before.  The exception is
    the [KeyError] of a missing configuration key or the [ValueError] or
    [TypeError] of [int] on a target identifier.  (The default mode may
    already have been published.) *)
Theorem deviceStartComm_failure_registers_nothing (dev : Device)
        (w w' : World) (e : exn) :
  deviceStartComm dev w = (Raise e, w') ->
  heap w' = heap w
  /\ next_loc w' = next_loc w
  /\ shifts w' = shifts w
  /\ device_to_shifts w' = device_to_shifts w
  /\ (e = KeyError \/ e = ValueError \/ e = TypeError).
Proof.
  destruct w as [h n sh idx dvs tr].
  unfold deviceStartComm. py_unfold. cbn.
  destruct (is_none (states_get dev "mode") || _); cbn;
    [destruct (pluginProps dev !! "default_mode"); cbn;
       [|intros H; inversion H; subst; cbn; auto 10]|].
  all: destruct (pluginProps dev !! "day_device_id") as [dp|]; cbn;
    [|intros H; inversion H; subst; cbn; auto 10].
  all: destruct (py_int dp) as [day|e1] eqn:Hday; cbn;
    [|intros H; inversion H; subst; cbn;
      destruct (py_int_error _ _ Hday); auto 10].
  all: destruct (pluginProps dev !! "night_device_id") as [np|]; cbn;
    [|intros H; inversion H; subst; cbn; auto 10].
  all: destruct (py_int np) as [night|e2] eqn:Hnight; cbn;
    [|intros H; inversion H; subst; cbn;
      destruct (py_int_error _ _ Hnight); auto 10].
  all: rewrite ?Hday, ?Hnight; cbn; intros H; discriminate H.
Qed.

Lemma deviceStartComm_failure_registers_nothing_witness :
  let dev := mkDevice 4 "Unset shift" ∅
               {[ "default_mode" := VStr "day";
                  "day_device_id" := VStr "";
                  "night_device_id" := VStr "20" ]} in
  shifts (world_after (deviceStartComm dev) w_porch) = shifts w_porch
  /\ device_to_shifts (world_after (deviceStartComm dev) w_porch)
     = device_to_shifts w_porch.
Proof.
  intros dev.
  destruct (deviceStartComm_failure_registers_nothing dev w_porch
              (world_after (deviceStartComm dev) w_porch) ValueError eq_refl)
    as (_ & _ & Hs & Hi & _).
  split; assumption.
Defined.

(* ===================================================================== *)
(** ** What the invariant gives *)
(* ===================================================================== *)

(** The scenario worlds are reachable. *)
Lemma w_porch_reachable : rtc step (loaded house) w_porch.
Proof.
  eapply rtc_l; [apply step_startup|].
  eapply rtc_l; [apply (step_start _ (the_device 1)); reflexivity|].
  apply rtc_refl.
Qed.

Lemma w_two_reachable : rtc step (loaded house) w_two.
Proof.
  eapply rtc_r; [apply w_porch_reachable|].
  apply (step_start _ (the_device 2)). reflexivity.
Qed.

(** X10.  In every world the plugin can reach, the index is exactly the
    registry read backwards: the entry of a device holds a shift if and
    only if that shift is registered and names the device as its day or
    its night device. *)
Theorem reachable_index_mirrors_registry (dvs : gmap Z Device) (w : World)
        (d : Z) (l : loc) :
  rtc step (loaded dvs) w ->
  (exists ls, device_to_shifts w !! d = Some ls /\ l ∈ ls)
  <-> (exists k s, shifts w !! k = Some l /\ heap w !! l = Some s
                   /\ (day_device_id s = d \/ night_device_id s = d)).
Proof.
  intros Hr. pose proof (reachable_wf dvs w Hr) as Hwf. split.
  - intros (ls & Hd & Hl).
    destruct (wf_idx w Hwf d ls Hd) as (_ & _ & Hmem).
    destruct (Hmem l Hl) as (s & Hs & Hreg & Ht).
    exists (device_id s), s. auto.
  - intros (k & s & Hk & Hs & Ht).
    destruct (wf_reg w Hwf k l Hk) as (s' & Hs' & _ & Hday & Hnight).
    assert (s' = s) by congruence. subst s'.
    destruct Ht as [<-| <-]; assumption.
Qed.

Lemma reachable_index_mirrors_registry_witness :
  exists ls, device_to_shifts w_two !! 30 = Some ls /\ 1%nat ∈ ls.
Proof.
  apply (reachable_index_mirrors_registry house w_two 30 1%nat w_two_reachable).
  exists 2, (mkShift 2 (VBool false) NIGHT 10 30).
  split; [reflexivity|]. split; [reflexivity|]. right. reflexivity.
Defined.

(** X11.  In every reachable world in which the server knows the virtual
    devices of the registered shifts, a change notification for a device
    returns normally and afterwards every registered shift for which the
    device is the active target has the reported state as its cached
    [onOffState]; every other registered shift keeps its cached state;
    no mode changes. *)
Theorem reachable_deviceUpdated_mirrors (dvs : gmap Z Device) (w : World)
        (orig_dev new_dev : Device) :
  rtc step (loaded dvs) w ->
  (forall k l, shifts w !! k = Some l -> is_Some (devices w !! k)) ->
  exists w',
    deviceUpdated orig_dev new_dev w = (Return tt, w')
    /\ forall k l s, shifts w !! k = Some l -> heap w !! l = Some s ->
         cached_onOffState w' k
         = Some (if is_active_target s (dev_id new_dev)
                 then states_get new_dev "onOffState"
                 else onOffState s)
         /\ cached_mode w' k = Some (mode s).
Proof.
  intros Hr Hknown. pose proof (reachable_wf dvs w Hr) as Hwf.
  set (d := dev_id new_dev). set (v := states_get new_dev "onOffState").
  assert (Hinactive : forall k l s, shifts w !! k = Some l ->
            heap w !! l = Some s ->
            (forall ls, device_to_shifts w !! d = Some ls -> l ∉ ls) ->
            is_active_target s d = false).
  { intros k l s Hk Hs Hout.
    destruct (is_active_target s d) eqn:Ha; [|reflexivity]. exfalso.
    apply is_active_target_spec in Ha.
    destruct (wf_reg w Hwf k l Hk) as (s' & Hs' & _ & (lsd & Hd & Hld)
                                       & (lsn & Hn & Hln)).
    assert (s' = s) by congruence. subst s'.
    destruct Ha as [[_ E]|[_ E]].
    - rewrite E in Hd. exact (Hout lsd Hd Hld).
    - rewrite E in Hn. exact (Hout lsn Hn Hln). }
  unfold deviceUpdated, bind, get. cbn. fold d.
  destruct (device_to_shifts w !! d) as [ls|] eqn:Hidx.
  - destruct (deviceUpdated_loop new_dev ls w)
      as (w' & Hrun & Hin & Hout & _ & Hsh & _ & _).
    { intros l Hl. destruct (wf_idx w Hwf d ls Hidx) as (_ & _ & Hmem).
      destruct (Hmem l Hl) as (s & Hs & Hreg & _).
      destruct (Hknown _ _ Hreg) as [dv Hdv]. eauto. }
    fold d v in Hin. exists w'. split; [exact Hrun|].
    intros k l s Hk Hs. unfold cached_onOffState, cached_mode.
    rewrite Hsh, Hk. cbn.
    destruct (decide (l ∈ ls)) as [Hl|Hl].
    + rewrite (Hin l Hl), Hs. cbn. unfold mirror.
      destruct (is_active_target s d); split; reflexivity.
    + rewrite (Hout l Hl), Hs. cbn.
      rewrite (Hinactive k l s Hk Hs); [split; reflexivity|].
      intros ls' E. congruence.
  - exists w. split; [reflexivity|].
    intros k l s Hk Hs. unfold cached_onOffState, cached_mode.
    rewrite Hk. cbn. rewrite Hs. cbn.
    rewrite (Hinactive k l s Hk Hs); [split; reflexivity|].
    intros ls' E. congruence.
Qed.

Lemma reachable_deviceUpdated_mirrors_witness :
  exists w',
    deviceUpdated (the_device 10) (the_device 10) w_two = (Return tt, w')
    /\ cached_onOffState w' 1 = Some (VBool true)
    /\ cached_onOffState w' 2 = Some (VBool false).
Proof.
  destruct (reachable_deviceUpdated_mirrors house w_two (the_device 10)
              (the_device 10) w_two_reachable) as (w' & Hrun & Hall).
  { intros k l Hk.
    assert (Hdom : k = 1 \/ k = 2).
    { change (shifts w_two) with
        (<[2 := 1%nat]> (<[1 := 0%nat]> (∅ : gmap Z nat))) in Hk.
      apply lookup_insert_Some in Hk as [[<- _]|[_ Hk]]; [auto|].
      apply lookup_insert_Some in Hk as [[<- _]|[_ Hk]]; [auto|].
      rewrite lookup_empty in Hk. discriminate. }
    destruct Hdom as [->| ->]; eexists; reflexivity. }
  exists w'. split; [exact Hrun|].
  destruct (Hall 1 0%nat (mkShift 1 (VBool false) DAY 10 20) eq_refl eq_refl)
    as [H1 _].
  destruct (Hall 2 1%nat (mkShift 2 (VBool false) NIGHT 10 30) eq_refl eq_refl)
    as [H2 _].
  split; assumption.
Defined.

(* ===================================================================== *)
(** ** Starting and stopping again *)
(* ===================================================================== *)

Lemma without_app_new (l : loc) (ls : list loc) :
  l ∉ ls -> without l (ls ++ [l]) = ls.
Proof.
  intros Hl. unfold without. rewrite List.filter_app.
  change (without l ls ++ without l [l] = ls).
  rewrite (without_id l ls Hl), without_singleton. apply app_nil_r.
Qed.

(** Taking the newest object out of an entry it was appended to gives the
    entry back, or no entry where there was none. *)
Lemma restore_entry (w : World) (k : Z) :
  wf w ->
  (if decide (default [] (device_to_shifts w !! k) ++ [next_loc w]
              = [next_loc w])
   then None
   else Some (without (next_loc w)
                (default [] (device_to_shifts w !! k) ++ [next_loc w])))
  = device_to_shifts w !! k.
Proof.
  intros Hwf.
  destruct (device_to_shifts w !! k) as [ls0|] eqn:E; cbn -[without].
  - destruct (wf_idx w Hwf k ls0 E) as (_ & Hne & Hmem).
    assert (Hl : next_loc w ∉ ls0).
    { intros Hl. destruct (Hmem _ Hl) as (s & Hs & _).
      pose proof (wf_heap w Hwf _ s Hs). lia. }
    rewrite (without_app_new _ ls0 Hl).
    destruct (decide (ls0 ++ [next_loc w] = [next_loc w])) as [E'|_];
      [|reflexivity].
    exfalso. destruct ls0 as [|x ls0]; [congruence|].
    inversion E' as [[Hx Hnil]]. destruct ls0; discriminate.
  - destruct (decide ([next_loc w] = [next_loc w])); [reflexivity|congruence].
Qed.

(** X12.  In a reachable world, starting a shift from a valid
    configuration and stopping it again gives back the registry and the
    index exactly as they were, and leaves the older objects alone.  The
    stop returns normally when the two targets differ and raises
    [KeyError] when they are one device; the bookkeeping is restored in
    both cases. *)
Theorem start_stop_round_trip (dvs : gmap Z Device) (dev : Device)
        (w : World) (dp np dm : value) (day night : Z) :
  rtc step (loaded dvs) w ->
  shifts w !! dev_id dev = None ->
  pluginProps dev !! "day_device_id" = Some dp ->
  py_int dp = inl day ->
  pluginProps dev !! "night_device_id" = Some np ->
  py_int np = inl night ->
  (states_get dev "mode" <> DAY -> states_get dev "mode" <> NIGHT ->
   pluginProps dev !! "default_mode" = Some dm) ->
  let w1 := world_after (deviceStartComm dev) w in
  let w2 := world_after (deviceStopComm dev) w1 in
  outcome (deviceStopComm dev) w1
  = (if decide (day = night) then Raise KeyError else Return tt)
  /\ shifts w2 = shifts w
  /\ device_to_shifts w2 = device_to_shifts w
  /\ (forall l s, heap w !! l = Some s -> heap w2 !! l = Some s)
  /\ devices w2 = devices w1.
Proof.
  intros Hr Hnew Hdp Hday Hnp Hnight Hdm w1 w2.
  pose proof (reachable_wf dvs w Hr) as Hwf.
  pose proof (deviceStartComm_wf dev w Hwf Hnew) as Hwf1. fold w1 in Hwf1.
  pose proof (deviceStartComm_run dev w dp np dm day night
                Hdp Hday Hnp Hnight Hdm) as Hrun.
  cbv zeta in Hrun.
  set (sh := mkShift (dev_id dev) (VBool false)
               (if bool_decide (states_get dev "mode" = DAY
                                \/ states_get dev "mode" = NIGHT)
                then states_get dev "mode" else dm) day night) in Hrun.
  pose proof (start_index_lookup w sh Hwf Hnew day night) as Hlk.
  cbv zeta in Hlk.
  assert (Hw1 : w1 = (deviceStartComm dev w).2) by reflexivity.
  rewrite Hrun in Hw1. cbn [snd] in Hw1.
  set (l := next_loc w) in *.
  assert (Hreg1 : shifts w1 !! dev_id dev = Some l).
  { rewrite Hw1. cbn. apply lookup_insert_eq. }
  assert (Hs1 : heap w1 !! l = Some sh).
  { rewrite Hw1. cbn. apply lookup_insert_eq. }
  assert (Hidx1 : forall k, device_to_shifts w1 !! k
            = if decide (k = day \/ k = night)
              then Some (default [] (device_to_shifts w !! k) ++ [l])
              else device_to_shifts w !! k).
  { intros k. rewrite Hw1. cbn. apply Hlk. }
  assert (Hd1 : device_to_shifts w1 !! day_device_id sh
                = Some (default [] (device_to_shifts w !! day) ++ [l])).
  { rewrite Hidx1. cbn. destruct (decide _) as [_|Hn]; [reflexivity|].
    exfalso. apply Hn. auto. }
  assert (Hn1 : device_to_shifts w1 !! night_device_id sh
                = Some (default [] (device_to_shifts w !! night) ++ [l])).
  { rewrite Hidx1. cbn. destruct (decide _) as [_|Hn]; [reflexivity|].
    exfalso. apply Hn. auto. }
  assert (Hlast : forall ls : list nat, l ∈ ls ++ [l]).
  { intros ls. apply elem_of_app. right. apply list_elem_of_here. }
  pose proof (wf_sole_member w1 _ _ l Hwf1 Hd1 (Hlast _)) as Hsd.
  pose proof (wf_sole_member w1 _ _ l Hwf1 Hn1 (Hlast _)) as Hsn.
  assert (Hheap : forall x s, heap w !! x = Some s -> heap w1 !! x = Some s).
  { intros x s Hx. rewrite Hw1. cbn.
    pose proof (wf_heap w Hwf x s Hx).
    rewrite lookup_insert_ne by (subst l; lia). exact Hx. }
  assert (Hsh : delete (dev_id dev) (shifts w1) = shifts w).
  { rewrite Hw1. cbn. apply delete_insert_id. exact Hnew. }
  unfold outcome. subst w2. unfold world_after.
  destruct (decide (day = night)) as [He|Hne].
  - rewrite (deviceStopComm_same_target_run dev w1 l sh _ Hreg1 Hs1 Hd1 Hsd He).
    cbn. split; [reflexivity|]. split; [exact Hsh|].
    split; [|split; [exact Hheap|reflexivity]].
    apply map_eq. intros k.
    destruct (decide (k = day)) as [->|Hk].
    + change (day_device_id sh) with day. rewrite pruned_lookup_eq.
      apply (restore_entry w day Hwf).
    + change (day_device_id sh) with day.
      rewrite pruned_lookup_ne by exact Hk. rewrite Hidx1.
      destruct (decide _) as [[?|?]|_]; [congruence..|reflexivity].
  - rewrite (deviceStopComm_run dev w1 l sh _ _ Hreg1 Hs1 Hd1 Hn1 Hsd Hsn Hne).
    cbn. split; [reflexivity|]. split; [exact Hsh|].
    split; [|split; [exact Hheap|reflexivity]].
    apply map_eq. intros k.
    destruct (decide (k = night)) as [->|Hkn].
    + rewrite pruned_lookup_eq. apply (restore_entry w night Hwf).
    + rewrite pruned_lookup_ne by exact Hkn.
      destruct (decide (k = day)) as [->|Hkd].
      * rewrite pruned_lookup_eq. apply (restore_entry w day Hwf).
      * rewrite pruned_lookup_ne by exact Hkd. rewrite Hidx1.
        destruct (decide _) as [[?|?]|_]; [contradiction..|reflexivity].
Qed.

Lemma start_stop_round_trip_witness :
  (outcome (deviceStopComm (the_device 2)) w_two = Return tt
   /\ shifts (world_after (deviceStopComm (the_device 2)) w_two)
      = shifts w_porch
   /\ device_to_shifts (world_after (deviceStopComm (the_device 2)) w_two)
      = device_to_shifts w_porch)
  /\ (outcome (deviceStopComm (the_device 3)) w_shared = Raise KeyError
      /\ shifts (world_after (deviceStopComm (the_device 3)) w_shared)
         = shifts w_porch
      /\ device_to_shifts (world_after (deviceStopComm (the_device 3)) w_shared)
         = device_to_shifts w_porch).
Proof.
  split.
  - destruct (start_stop_round_trip house (the_device 2) w_porch
                (VStr "10") (VStr "30") (VStr "day") 10 30
                w_porch_reachable eq_refl eq_refl eq_refl eq_refl eq_refl
                (fun _ _ => eq_refl)) as (Ho & Hs & Hi & _).
    split; [exact Ho|]. split; [exact Hs|exact Hi].
  - destruct (start_stop_round_trip house (the_device 3) w_porch
                (VStr "10") (VStr "10") (VStr "day") 10 10
                w_porch_reachable eq_refl eq_refl eq_refl eq_refl eq_refl
                (fun _ _ => eq_refl)) as (Ho & Hs & Hi & _).
    split; [exact Ho|]. split; [exact Hs|exact Hi].
Defined.

(* ===================================================================== *)
(** ** The same notification twice *)
(* ===================================================================== *)

Lemma publishes_mirror (h h' : gmap loc Shift) (d : Z) (v : value)
      (ls : list loc) (k : Z) :
  (forall l, l ∈ ls -> h' !! l = mirror d v <$> h !! l) ->
  publishes h' d ls k = publishes h d ls k.
Proof.
  intros Hin. unfold publishes. induction ls as [|x ls IH]; [reflexivity|].
  cbn. rewrite IH.
  - rewrite (Hin x (list_elem_of_here _ _)).
    destruct (h !! x) as [s|]; cbn; [|reflexivity].
    rewrite is_active_target_mirror, device_id_mirror. reflexivity.
  - intros l Hl. apply Hin. apply list_elem_of_further, Hl.
Qed.

(** X13.  A change notification that is delivered twice changes nothing
    the second time: the shift objects, the registry, the index and the
    states the server holds are as the first delivery left them, and the
    second call returns normally.  (Each delivery publishes again.) *)
Theorem deviceUpdated_twice (orig_dev orig_dev' new_dev : Device) (w : World) :
  (forall l, l ∈ default [] (device_to_shifts w !! dev_id new_dev) ->
     exists s dv, heap w !! l = Some s /\ devices w !! device_id s = Some dv) ->
  let w1 := world_after (deviceUpdated orig_dev new_dev) w in
  let w2 := world_after (deviceUpdated orig_dev' new_dev) w1 in
  outcome (deviceUpdated orig_dev' new_dev) w1 = Return tt
  /\ heap w2 = heap w1
  /\ shifts w2 = shifts w1
  /\ device_to_shifts w2 = device_to_shifts w1
  /\ devices w2 = devices w1.
Proof.
  intros Hlive w1 w2. subst w2 w1. unfold outcome, world_after.
  unfold deviceUpdated, bind, get. cbn.
  destruct (device_to_shifts w !! dev_id new_dev) as [ls|] eqn:Hidx;
    cbn in Hlive |- *.
  - destruct (deviceUpdated_loop new_dev ls w Hlive)
      as (w1 & Hrun & Hin & Hout & _ & Hsh & Hdx & _ & Hpub & Hnpub).
    rewrite Hrun. cbn. rewrite Hdx, Hidx.
    destruct (deviceUpdated_loop new_dev ls w1)
      as (w2 & Hrun2 & Hin2 & Hout2 & _ & Hsh2 & Hdx2 & _ & Hpub2 & Hnpub2).
    { intros l Hl. destruct (Hlive l Hl) as (s & dv & Hs & Hdv).
      assert (Hdv1 : is_Some (devices w1 !! device_id s)).
      { destruct (publishes (heap w) (dev_id new_dev) ls (device_id s)) eqn:E.
        - rewrite (Hpub _ E), Hdv. cbn. eauto.
        - rewrite (Hnpub _ E), Hdv. eauto. }
      destruct Hdv1 as [dv1 Hdv1].
      exists (mirror (dev_id new_dev) (states_get new_dev "onOffState") s), dv1.
      split; [rewrite (Hin l Hl), Hs; reflexivity|].
      rewrite device_id_mirror. exact Hdv1. }
    rewrite Hrun2. cbn. split; [reflexivity|].
    split; [|split; [exact Hsh2|split; [congruence|]]].
    + apply map_eq. intros l. destruct (decide (l ∈ ls)) as [Hl|Hl].
      * rewrite (Hin2 l Hl), (Hin l Hl).
        destruct (heap w !! l) as [s|]; cbn; [|reflexivity].
        rewrite mirror_idemp. reflexivity.
      * rewrite (Hout2 l Hl). reflexivity.
    + apply map_eq. intros k.
      destruct (publishes (heap w1) (dev_id new_dev) ls k) eqn:E.
      * rewrite (Hpub2 _ E).
        rewrite (publishes_mirror (heap w) (heap w1) _ _ ls k Hin) in E.
        rewrite (Hpub _ E).
        destruct (devices w !! k) as [dv|]; cbn; [|reflexivity].
        rewrite set_state_idemp. reflexivity.
      * exact (Hnpub2 _ E).
  - rewrite Hidx. repeat split; reflexivity.
Qed.

Lemma deviceUpdated_twice_witness :
  let w1 := world_after (deviceUpdated (the_device 10) (the_device 10)) w_two in
  let w2 := world_after (deviceUpdated (the_device 10) (the_device 10)) w1 in
  cached_onOffState w1 1 = Some (VBool true)
  /\ heap w2 = heap w1
  /\ devices w2 = devices w1.
Proof.
  intros w1 w2.
  assert (Hlive : forall l,
            l ∈ default [] (device_to_shifts w_two !! dev_id (the_device 10)) ->
            exists s dv, heap w_two !! l = Some s
                         /\ devices w_two !! device_id s = Some dv).
  { intros l Hl.
    change (l ∈ [0%nat; 1%nat]) in Hl.
    apply elem_of_cons in Hl as [->|Hl];
      [|apply elem_of_cons in Hl as [->|Hl]; [|inversion Hl]].
    - eexists _, _. split; reflexivity.
    - eexists _, _. split; reflexivity. }
  destruct (deviceUpdated_twice (the_device 10) (the_device 10)
              (the_device 10) w_two Hlive) as (_ & Hh & _ & _ & Hd).
  split; [reflexivity|]. split; [exact Hh|exact Hd].
Defined.

(* ===================================================================== *)
(** ** Hashing shifts *)
(* ===================================================================== *)

(** X14.  [Shift.__hash__] agrees with the equality that [dataclass]
    generates: shifts that compare equal have the same hash.  The hash
    reads only [device_id], so assigning [onOffState] or [mode] to a
    shift that sits in a set does not change its hash. *)
Theorem Shift_hash_respects_eq (a b : Shift) (v : value) :
  (Shift_eq a b = true -> Shift_hash a = Shift_hash b)
  /\ Shift_hash (set_onOffState v a) = Shift_hash a
  /\ Shift_hash (set_mode v a) = Shift_hash a.
Proof.
  split; [|split; reflexivity].
  unfold Shift_eq, Shift_hash. rewrite !andb_true_iff.
  intros [[[[E _] _] _] _]. apply Z.eqb_eq, E.
Qed.

Lemma Shift_hash_respects_eq_witness :
  Shift_hash (mkShift 1 (VBool true) DAY 10 20)
  = Shift_hash (mkShift 1 (VInt 1) DAY 10 20).
Proof.
  exact (proj1 (Shift_hash_respects_eq (mkShift 1 (VBool true) DAY 10 20)
                  (mkShift 1 (VInt 1) DAY 10 20) VNone) eq_refl).
Defined.
